(** * Tama: connection manager and client-message handler

    A shallow embedding of [app/api/websocket.py] (classes
    [ConnectionManager] and [WebSocketHandler]) and of the two models of
    [app/models/tamagotchi.py] it serialises, followed by the properties of
    the connection registry, of the broadcast sweep and of message dispatch.

    Coroutines are run to completion one at a time: an [await] is a plain
    call.  Interleaving with other sessions is outside this model. *)

From Stdlib Require Import List String Ascii ZArith Bool Arith Lia Permutation.
Import ListNotations.
Local Open Scope string_scope.

Set Implicit Arguments.
Local Set Warnings "-register-all,-notation-for-abbreviation".

(** ** Python values *)

(** What [json.loads] can return and what a message [dict] can hold.  A
    [dict] keeps its keys in insertion order; keys are unique in Python, so
    lookup of the first binding is lookup. *)
Inductive value : Type :=
| VNone
| VBool (b : bool)
| VInt (n : Z)
| VFloat (literal : string)
| VStr (s : string)
| VList (items : list value)
| VDict (items : list (string * value)).

Definition Dict := list (string * value).

(** [d.get(key, default)] *)
Fixpoint get_default (d : Dict) (key : string) (default : value) : value :=
  match d with
  | [] => default
  | (k, v) :: rest => if String.eqb k key then v else get_default rest key default
  end.

(** [d.get(key)] *)
Definition get (d : Dict) (key : string) : value := get_default d key VNone.

(** [list(d.keys())] *)
Definition keys (d : Dict) : list string := map fst d.

(** [v == "literal"]: only a [str] can equal a string literal. *)
Definition eq_str (v : value) (literal : string) : bool :=
  match v with
  | VStr s => String.eqb s literal
  | _ => false
  end.

(** ** Exceptions

    Every exception of the model derives from [Exception]; interpreter
    signals such as task cancellation are not modelled. *)
Inductive exn : Type :=
| JSONDecodeError
| AttributeError
| WebSocketDisconnect
| OtherError (name : string).

Definition is_JSONDecodeError (e : exn) : bool :=
  match e with JSONDecodeError => true | _ => false end.

Inductive Outcome (A : Type) : Type :=
| Returned (a : A)
| Raised (e : exn).
Arguments Returned {A} a.
Arguments Raised {A} e.

(** Points in time, as read from the wall clock. *)
Definition datetime := nat.

(** The parts of the Python runtime the code calls and this file does not
    define: [json.loads], [json.dumps], [repr] of numbers and containers,
    and [datetime.isoformat].  [json_loads data] is [None] when
    [json.loads(data)] raises, and [json_loads_error data] is then what it
    raises: [JSONDecodeError] for text that is not JSON, but also
    [RecursionError] for brackets nested too deep or [ValueError] for an
    integer with too many digits. *)
Class PyRuntime : Type := {
  json_loads : string -> option value;
  json_loads_error : string -> exn;
  json_dumps : value -> string;
  py_repr : value -> string;
  isoformat : datetime -> string
}.

(** [f"{v}"], that is [str(v)]. *)
Definition format_value {py : PyRuntime} (v : value) : string :=
  match v with
  | VStr s => s
  | VNone => "None"
  | VBool true => "True"
  | VBool false => "False"
  | other => py_repr other
  end.

(** ** Models ([app/models/tamagotchi.py]) *)

Record TamagotchiState : Type := {
  name : string;
  age : Z;
  hunger : Z;
  happiness : Z;
  energy : Z;
  is_alive : bool;
  current_mood : string;
  last_fed : datetime;
  last_played : datetime;
  last_slept : datetime;
  last_pet : datetime;
  created_at : datetime;
  total_interactions : Z;
  deaths : Z
}.

(** [TamagotchiState.to_dict]: [model_dump()] with every [datetime]
    replaced by its ISO string. *)
Definition to_dict {py : PyRuntime} (s : TamagotchiState) : Dict :=
  [ ("name", VStr (name s));
    ("age", VInt (age s));
    ("hunger", VInt (hunger s));
    ("happiness", VInt (happiness s));
    ("energy", VInt (energy s));
    ("is_alive", VBool (is_alive s));
    ("current_mood", VStr (current_mood s));
    ("last_fed", VStr (isoformat (last_fed s)));
    ("last_played", VStr (isoformat (last_played s)));
    ("last_slept", VStr (isoformat (last_slept s)));
    ("last_pet", VStr (isoformat (last_pet s)));
    ("created_at", VStr (isoformat (created_at s)));
    ("total_interactions", VInt (total_interactions s));
    ("deaths", VInt (deaths s)) ].

Record ActionResult : Type := {
  success : bool;
  message : string;
  stat_changes : Dict;
  new_mood : string;
  timestamp : datetime
}.

(** [state.to_dict() if state else None]: a model instance is always
    truthy, so only [None] takes the else branch. *)
Definition snapshot_or_null {py : PyRuntime} (state : option TamagotchiState) : value :=
  match state with
  | Some s => VDict (to_dict s)
  | None => VNone
  end.

(** ** Collaborators

    [lib.game_logic.GameEngine] and [lib.llm_client.TamagotchiLLMClient] are
    used through their methods only; each call may return or raise and may
    change the collaborator's own state. *)
Inductive Action : Type := Feed | Play | Sleep | Pet | Revive.

Inductive EngineOp : Type :=
| GetState
| Act (a : Action).

Class GameEngine (E : Type) : Type := {
  get_state : E -> Outcome (option TamagotchiState) * E;
  feed : E -> Outcome ActionResult * E;
  play : E -> Outcome ActionResult * E;
  sleep : E -> Outcome ActionResult * E;
  pet : E -> Outcome ActionResult * E;
  revive : E -> Outcome ActionResult * E
}.

Class LLMClient (L : Type) : Type := {
  (** [get_response(state, action=, action_result=, user_message=)] *)
  get_response :
    option TamagotchiState -> value -> option ActionResult -> option value ->
    L -> Outcome string * L
}.

(** ** The world a coroutine runs in *)

Definition WebSocket := nat.

(** The trace, oldest event first.  [EvAccept] and [EvSend] are what the
    transport sees, with whether the frame went through.  The others mark a
    call: [EvPersonal] and [EvBroadcast] the entry of [send_personal_message]
    and of [broadcast], [EvDisconnect] the line [disconnect] prints,
    [EvEngine] and [EvRespond] a call to a collaborator. *)
Inductive Event : Type :=
| EvAccept (ws : WebSocket)
| EvSend (ws : WebSocket) (frame : string) (delivered : bool)
| EvDisconnect (ws : WebSocket)
| EvPersonal (ws : WebSocket) (msg : value)
| EvBroadcast (msg : value)
| EvEngine (op : EngineOp)
| EvRespond (action : value).

Record World (E L : Type) : Type := mkWorld {
  active_connections : list WebSocket;
  (** the transport: [Some e] when [accept] / [send_text] on that socket
      raises [e]; a socket accepts its handshake once, see [handshake_done] *)
  accept_fault : WebSocket -> option exn;
  send_fault : WebSocket -> option exn;
  clock : datetime;
  game_engine : E;
  llm_client : L;
  trace : list Event
}.
Arguments mkWorld {E L}.

Section Server.
Context {py : PyRuntime} {E L : Type} {GE : GameEngine E} {LC : LLMClient L}.

Local Notation World := (World E L) (only parsing).

(** A coroutine: it runs from a world to an outcome and a new world.  What
    it did before raising stays done. *)
Definition Async (A : Type) : Type := World -> Outcome A * World.

Definition ret {A} (a : A) : Async A := fun w => (Returned a, w).

Definition raise {A} (e : exn) : Async A := fun w => (Raised e, w).

Definition bind {A B} (m : Async A) (k : A -> Async B) : Async B :=
  fun w =>
    match m w with
    | (Returned a, w') => k a w'
    | (Raised e, w') => (Raised e, w')
    end.

(** [try: body / except <handled>: handler].  [handler e = None] when no
    [except] clause matches [e]. *)
Definition try_except {A} (body : Async A) (handler : exn -> option (Async A)) : Async A :=
  fun w =>
    match body w with
    | (Returned a, w') => (Returned a, w')
    | (Raised e, w') =>
        match handler e with
        | Some h => h w'
        | None => (Raised e, w')
        end
    end.

Definition set_connections (l : list WebSocket) (w : World) : World :=
  mkWorld l (accept_fault w) (send_fault w) (clock w)
          (game_engine w) (llm_client w) (trace w).

Definition set_engine (e : E) (w : World) : World :=
  mkWorld (active_connections w) (accept_fault w) (send_fault w) (clock w)
          e (llm_client w) (trace w).

Definition set_llm (l : L) (w : World) : World :=
  mkWorld (active_connections w) (accept_fault w) (send_fault w) (clock w)
          (game_engine w) l (trace w).

Definition record (evs : list Event) (w : World) : World :=
  mkWorld (active_connections w) (accept_fault w) (send_fault w) (clock w)
          (game_engine w) (llm_client w) (trace w ++ evs).

Definition emit (ev : Event) : Async unit :=
  fun w => (Returned tt, record [ev] w).

Definition tick (w : World) : World :=
  mkWorld (active_connections w) (accept_fault w) (send_fault w) (S (clock w))
          (game_engine w) (llm_client w) (trace w).

(** [datetime.now()]: the wall clock moves on between two readings. *)
Definition now : Async datetime :=
  fun w => (Returned (clock w), tick w).

(** What a completed handshake leaves of the socket: it is connected, and
    the framework answers another [accept] on it with a [RuntimeError]. *)
Definition handshake_done (ws : WebSocket) (w : World) : World :=
  mkWorld (active_connections w)
          (fun c => if Nat.eqb c ws then Some (OtherError "RuntimeError")
                    else accept_fault w c)
          (send_fault w) (clock w) (game_engine w) (llm_client w) (trace w).

(** [websocket.accept()] *)
Definition accept (ws : WebSocket) : Async unit :=
  fun w =>
    match accept_fault w ws with
    | None => emit (EvAccept ws) (handshake_done ws w)
    | Some e => (Raised e, w)
    end.

(** [websocket.send_text(frame)] *)
Definition send_text (ws : WebSocket) (frame : string) : Async unit :=
  fun w =>
    match send_fault w ws with
    | None => emit (EvSend ws frame true) w
    | Some e => bind (emit (EvSend ws frame false)) (fun _ => raise e) w
    end.

Local Notation "x <- m ;; k" := (bind m (fun x => k))
  (at level 61, m at next level, right associativity).
Local Notation "m ;;; k" := (bind m (fun _ => k))
  (at level 61, right associativity).

(** *** Collaborator calls *)

Definition engine_method (a : Action) : E -> Outcome ActionResult * E :=
  match a with
  | Feed => feed
  | Play => play
  | Sleep => sleep
  | Pet => pet
  | Revive => revive
  end.

(** [await self.game_engine.get_state()] *)
Definition call_get_state : Async (option TamagotchiState) :=
  emit (EvEngine GetState) ;;;
  fun w =>
    let (r, e') := get_state (game_engine w) in (r, set_engine e' w).

(** [await self.game_engine.feed()] and its four siblings *)
Definition call_action (a : Action) : Async ActionResult :=
  emit (EvEngine (Act a)) ;;;
  fun w =>
    let (r, e') := engine_method a (game_engine w) in (r, set_engine e' w).

(** [await self.llm_client.get_response(...)] *)
Definition call_get_response (state : option TamagotchiState) (action : value)
           (action_result : option ActionResult) (user_message : option value)
  : Async string :=
  emit (EvRespond action) ;;;
  fun w =>
    let (r, l') := get_response state action action_result user_message (llm_client w) in
    (r, set_llm l' w).

(** ** [class ConnectionManager] *)

(** [x in l] *)
Definition contains (l : list WebSocket) (x : WebSocket) : bool :=
  existsb (Nat.eqb x) l.

(** [l.remove(x)]: drops the first occurrence. *)
Fixpoint list_remove (x : WebSocket) (l : list WebSocket) : list WebSocket :=
  match l with
  | [] => []
  | y :: rest => if Nat.eqb x y then rest else y :: list_remove x rest
  end.

(** [connect]: the handshake, then [append]; nothing looks whether the
    socket is already in the list, but the handshake has to go through. *)
Definition connect (websocket : WebSocket) : Async unit :=
  accept websocket ;;;
  fun w => (Returned tt, set_connections (active_connections w ++ [websocket]) w).

(** [disconnect]: [remove] when the socket is in the list, and the line
    printed either way. *)
Definition disconnect (websocket : WebSocket) : Async unit :=
  (fun w =>
     if contains (active_connections w) websocket
     then (Returned tt, set_connections (list_remove websocket (active_connections w)) w)
     else (Returned tt, w)) ;;;
  emit (EvDisconnect websocket).

(** [send_personal_message]: one [send_text]; when it raises, the socket is
    disconnected and the exception goes no further. *)
Definition send_personal_message (msg : Dict) (websocket : WebSocket) : Async unit :=
  emit (EvPersonal websocket (VDict msg)) ;;;
  try_except
    (send_text websocket (json_dumps (VDict msg)))
    (fun e => Some (disconnect websocket)).

(** The first loop of [broadcast]: one [send_text] per member, a failure
    being recorded in [disconnected] and the loop going on. *)
Fixpoint broadcast_sweep (message_json : string) (members disconnected : list WebSocket)
  : Async (list WebSocket) :=
  match members with
  | [] => ret disconnected
  | connection :: rest =>
      d <- try_except
             (send_text connection message_json ;;; ret disconnected)
             (fun e => Some (ret (disconnected ++ [connection])%list)) ;;
      broadcast_sweep message_json rest d
  end.

(** The second loop of [broadcast]. *)
Fixpoint broadcast_cleanup (disconnected : list WebSocket) : Async unit :=
  match disconnected with
  | [] => ret tt
  | connection :: rest => disconnect connection ;;; broadcast_cleanup rest
  end.

(** [broadcast].  The first loop runs over the list itself, which nothing
    changes before the second loop. *)
Definition broadcast (msg : Dict) : Async unit :=
  emit (EvBroadcast (VDict msg)) ;;;
  fun w =>
    match active_connections w with
    | [] => (Returned tt, w)
    | _ =>
        (let message_json := json_dumps (VDict msg) in
         disconnected <- broadcast_sweep message_json (active_connections w) [] ;;
         broadcast_cleanup disconnected) w
    end.

Definition broadcast_state_update (tamagotchi_state : option TamagotchiState) : Async unit :=
  t <- now ;;
  broadcast [ ("type", VStr "state_update");
              ("timestamp", VStr (isoformat t));
              ("data", snapshot_or_null tamagotchi_state) ].

Definition broadcast_action_result (action : value) (result : Dict) (response : string)
  : Async unit :=
  t <- now ;;
  broadcast [ ("type", VStr "action_result");
              ("action", action);
              ("timestamp", VStr (isoformat t));
              ("success", get_default result "success" (VBool false));
              ("message", get_default result "message" (VStr ""));
              ("stat_changes", get_default result "stat_changes" (VDict []));
              ("response", VStr response) ].

Definition broadcast_chat_message (response mood : string) : Async unit :=
  t <- now ;;
  broadcast [ ("type", VStr "chat_message");
              ("timestamp", VStr (isoformat t));
              ("response", VStr response);
              ("mood", VStr mood) ].

Definition send_welcome_message (websocket : WebSocket)
           (tamagotchi_state : option TamagotchiState) : Async unit :=
  t <- now ;;
  send_personal_message
    [ ("type", VStr "welcome");
      ("timestamp", VStr (isoformat t));
      ("message", VStr "Connected to Tamagotchi!");
      ("data", snapshot_or_null tamagotchi_state) ]
    websocket.

Definition get_connection_count (w : World) : nat :=
  List.length (active_connections w).

(** ** [class WebSocketHandler] *)

(** [json.loads(data)] *)
Definition loads (data : string) : Async value :=
  match json_loads data with
  | Some v => ret v
  | None => raise (json_loads_error data)
  end.

(** [message.get(key, default)]: only a [dict] has the method. *)
Definition message_get_default (msg : value) (key : string) (default : value)
  : Async value :=
  match msg with
  | VDict d => ret (get_default d key default)
  | _ => raise AttributeError
  end.

(** [message.get(key)] *)
Definition message_get (msg : value) (key : string) : Async value :=
  message_get_default msg key VNone.

Definition error_message (text : string) (t : datetime) : Dict :=
  [ ("type", VStr "error");
    ("message", VStr text);
    ("timestamp", VStr (isoformat t)) ].

(** [handle_action_message].  [selected] is [None] on the branch that
    broadcasts the error and returns. *)
Definition handle_action_message (msg : value) : Async unit :=
  action <- message_get msg "action" ;;
  selected <-
    (if eq_str action "feed" then result <- call_action Feed ;; ret (Some result)
     else if eq_str action "play" then result <- call_action Play ;; ret (Some result)
     else if eq_str action "sleep" then result <- call_action Sleep ;; ret (Some result)
     else if eq_str action "pet" then result <- call_action Pet ;; ret (Some result)
     else if eq_str action "revive" then result <- call_action Revive ;; ret (Some result)
     else
       t <- now ;;
       broadcast (error_message ("Unknown action: " ++ format_value action) t) ;;;
       ret None) ;;
  match selected with
  | None => ret tt
  | Some result =>
      current_state <- call_get_state ;;
      llm_response <- call_get_response current_state action (Some result) None ;;
      broadcast_action_result
        action
        [ ("success", VBool (success result));
          ("message", VStr (message result));
          ("stat_changes", VDict (stat_changes result)) ]
        llm_response ;;;
      broadcast_state_update current_state
  end.

(** The mood sent with a chat message when there is no pet: the nine
    bytes of the source's literal. *)
Definition fallback_mood : string :=
  string_of_list_ascii
    (map ascii_of_nat [239; 163; 191; 195; 188; 195; 178; 195; 170]%nat).

Definition handle_chat_message (msg : value) : Async unit :=
  user_message <- message_get_default msg "message" (VStr "") ;;
  current_state <- call_get_state ;;
  llm_response <- call_get_response current_state (VStr "talk") None (Some user_message) ;;
  broadcast_chat_message
    llm_response
    (match current_state with
     | Some s => current_mood s
     | None => fallback_mood
     end).

(** [handle_client_message].  The handler of [try_except] is the two
    [except] clauses, [json.JSONDecodeError] first, [Exception] next. *)
Definition handle_client_message (websocket : WebSocket) (data : string) : Async unit :=
  try_except
    (msg <- loads data ;;
     message_type <- message_get msg "type" ;;
     if eq_str message_type "ping" then
       t <- now ;;
       send_personal_message
         [ ("type", VStr "pong"); ("timestamp", VStr (isoformat t)) ]
         websocket
     else if eq_str message_type "get_state" then
       current_state <- call_get_state ;;
       t <- now ;;
       send_personal_message
         [ ("type", VStr "state_update");
           ("timestamp", VStr (isoformat t));
           ("data", snapshot_or_null current_state) ]
         websocket
     else if eq_str message_type "action" then handle_action_message msg
     else if eq_str message_type "chat" then handle_chat_message msg
     else
       t <- now ;;
       send_personal_message
         (error_message ("Unknown message type: " ++ format_value message_type) t)
         websocket)
    (fun e =>
       if is_JSONDecodeError e then
         Some (t <- now ;;
               send_personal_message (error_message "Invalid JSON format" t) websocket)
       else
         Some (t <- now ;;
               send_personal_message (error_message "Internal server error" t) websocket)).

(** The [while True] loop of [handle_websocket].  [incoming] holds the
    frames [receive_text] returns, in order; once they are used up the
    peer has closed and [receive_text] raises. *)
Fixpoint session_loop (websocket : WebSocket) (incoming : list string) : Async unit :=
  match incoming with
  | [] => raise WebSocketDisconnect
  | data :: rest =>
      handle_client_message websocket data ;;; session_loop websocket rest
  end.

(** [handle_websocket].  Both [except] clauses disconnect the socket. *)
Definition handle_websocket (websocket : WebSocket) (incoming : list string) : Async unit :=
  connect websocket ;;;
  current_state <- call_get_state ;;
  send_welcome_message websocket current_state ;;;
  try_except
    (session_loop websocket incoming)
    (fun e => Some (disconnect websocket)).

(** ** Reading a trace *)

Definition broadcasts (tr : list Event) : list value :=
  flat_map (fun ev => match ev with EvBroadcast m => [m] | _ => [] end) tr.

Definition personals (tr : list Event) : list (WebSocket * value) :=
  flat_map (fun ev => match ev with EvPersonal ws m => [(ws, m)] | _ => [] end) tr.

Definition engine_calls (tr : list Event) : list EngineOp :=
  flat_map (fun ev => match ev with EvEngine op => [op] | _ => [] end) tr.

(** Every [send_text] attempted, with the socket it was attempted on. *)
Definition attempts (tr : list Event) : list (WebSocket * string) :=
  flat_map (fun ev => match ev with EvSend ws f _ => [(ws, f)] | _ => [] end) tr.

(** The frames [ws] received. *)
Definition received (ws : WebSocket) (tr : list Event) : list string :=
  flat_map (fun ev =>
              match ev with
              | EvSend c f true => if Nat.eqb c ws then [f] else []
              | _ => []
              end) tr.

(** *** What a send and a sweep leave in the trace *)

(** Whether [send_text] on [c] raises, given the faults of the transport. *)
Definition faulty (faults : WebSocket -> option exn) (c : WebSocket) : bool :=
  match faults c with
  | Some _ => true
  | None => false
  end.

(** One attempt per member, in registry order. *)
Definition sweep_events (faults : WebSocket -> option exn) (frame : string)
           (members : list WebSocket) : list Event :=
  map (fun c => EvSend c frame (negb (faulty faults c))) members.

(** The members a sweep collects in [disconnected]. *)
Definition dropped (faults : WebSocket -> option exn) (members : list WebSocket)
  : list WebSocket :=
  filter (faulty faults) members.

Definition remove_each (ds members : list WebSocket) : list WebSocket :=
  fold_left (fun l c => list_remove c l) ds members.

(** The registry a broadcast leaves behind. *)
Definition survivors (faults : WebSocket -> option exn) (members : list WebSocket)
  : list WebSocket :=
  remove_each (dropped faults members) members.

(** The events of one [broadcast] over [members]. *)
Definition broadcast_events (faults : WebSocket -> option exn)
           (members : list WebSocket) (msg : Dict) : list Event :=
  EvBroadcast (VDict msg)
    :: sweep_events faults (json_dumps (VDict msg)) members
    ++ map EvDisconnect (dropped faults members).

(** The events of one [send_personal_message] to [ws]. *)
Definition personal_events (faults : WebSocket -> option exn) (msg : Dict)
           (ws : WebSocket) : list Event :=
  EvPersonal ws (VDict msg)
    :: EvSend ws (json_dumps (VDict msg)) (negb (faulty faults ws))
    :: (if faulty faults ws then [EvDisconnect ws] else []).

(** The action names [handle_action_message] tests for, with the engine
    method each one selects. *)
Definition recognized : list (string * Action) :=
  [ ("feed", Feed); ("play", Play); ("sleep", Sleep); ("pet", Pet); ("revive", Revive) ].

(** The [except] clauses of [handle_client_message], applied to what the
    [try] body left behind. *)
Definition after_try (ws : WebSocket) (r : Outcome unit * World)
  : Outcome unit * World :=
  match r with
  | (Returned a, w') => (Returned a, w')
  | (Raised e, w1) =>
      send_personal_message
        (error_message
           (if is_JSONDecodeError e then "Invalid JSON format" else "Internal server error")
           (clock w1))
        ws (tick w1)
  end.

(** A stretch of trace in which nothing is sent or broadcast, as
    collaborator calls leave it. *)
Definition only_calls (calls : list Event) : Prop :=
  broadcasts calls = [] /\ personals calls = [] /\ attempts calls = []
  /\ forall c, received c calls = [].

(** While the message [d] is dispatched in [w], a call to the engine or to
    the response generator raises [e]: the calls are those the handlers
    make, in their order, each on what the earlier ones left. *)
Inductive collaborator_raises (d : Dict) (w : World) (e : exn) : Prop :=
| query_state_raises :
    get d "type" = VStr "get_state" ->
    fst (get_state (game_engine w)) = Raised e ->
    collaborator_raises d w e
| action_call_raises (nm : string) (a : Action) :
    get d "type" = VStr "action" ->
    get d "action" = VStr nm ->
    In (nm, a) recognized ->
    fst (engine_method a (game_engine w)) = Raised e ->
    collaborator_raises d w e
| action_state_raises (nm : string) (a : Action) (result : ActionResult) (e1 : E) :
    get d "type" = VStr "action" ->
    get d "action" = VStr nm ->
    In (nm, a) recognized ->
    engine_method a (game_engine w) = (Returned result, e1) ->
    fst (get_state e1) = Raised e ->
    collaborator_raises d w e
| action_response_raises (nm : string) (a : Action) (result : ActionResult) (e1 : E)
                         (st : option TamagotchiState) (e2 : E) :
    get d "type" = VStr "action" ->
    get d "action" = VStr nm ->
    In (nm, a) recognized ->
    engine_method a (game_engine w) = (Returned result, e1) ->
    get_state e1 = (Returned st, e2) ->
    fst (get_response st (VStr nm) (Some result) None (llm_client w)) = Raised e ->
    collaborator_raises d w e
| chat_state_raises :
    get d "type" = VStr "chat" ->
    fst (get_state (game_engine w)) = Raised e ->
    collaborator_raises d w e
| chat_response_raises (st : option TamagotchiState) (e1 : E) :
    get d "type" = VStr "chat" ->
    get_state (game_engine w) = (Returned st, e1) ->
    fst (get_response st (VStr "talk") None
                      (Some (get_default d "message" (VStr ""))) (llm_client w))
    = Raised e ->
    collaborator_raises d w e.

(** The ["type"] of an outbound message. *)
Definition type_of (msg : value) : value :=
  match msg with
  | VDict d => get d "type"
  | _ => VNone
  end.

(** ** Sequences of registry calls *)

Inductive RegistryCall : Type :=
| Connect (ws : WebSocket)
| Disconnect (ws : WebSocket).

Definition registry_call (c : RegistryCall) : Async unit :=
  match c with
  | Connect ws => connect ws
  | Disconnect ws => disconnect ws
  end.

(** Calls made one after the other, each by its own session: a call that
    raises does not stop the later ones. *)
Fixpoint registry_calls (cs : list RegistryCall) (w : World) : World :=
  match cs with
  | [] => w
  | c :: rest => registry_calls rest (snd (registry_call c w))
  end.

(** Every registered socket is past its handshake, which is how [connect]
    leaves it: another [accept] on it raises.  True of the empty registry
    the manager starts with. *)
Definition registered_are_connected (w : World) : Prop :=
  forall ws, In ws (active_connections w) -> accept_fault w ws <> None.

(** The calls of [cs] that returned, in their order: a [connect] whose
    handshake was refused has registered nothing. *)
Fixpoint completed (cs : list RegistryCall) (w : World) : list RegistryCall :=
  match cs with
  | [] => []
  | c :: rest =>
      match registry_call c w with
      | (Returned _, w') => c :: completed rest w'
      | (Raised _, w') => completed rest w'
      end
  end.

(** Whether the last call of [cs] about [ws] is a [connect]. *)
Fixpoint registered_after (cs : list RegistryCall) (ws : WebSocket) (before : bool) : bool :=
  match cs with
  | [] => before
  | Connect c :: rest => registered_after rest ws (if Nat.eqb c ws then true else before)
  | Disconnect c :: rest => registered_after rest ws (if Nat.eqb c ws then false else before)
  end.

Definition socket_of (c : RegistryCall) : WebSocket :=
  match c with Connect ws => ws | Disconnect ws => ws end.

(** The distinct sockets that were registered and not deregistered since,
    [cs] being the calls that returned. *)
Definition still_registered (cs : list RegistryCall) : list WebSocket :=
  nodup Nat.eq_dec
        (filter (fun ws => registered_after cs ws false) (map socket_of cs)).

End Server.

(** ** [class TamagotchiState]: moods, death and revival *)

Section Pet.

(** A string given by its UTF-8 bytes. *)
Definition utf8 (bytes : list nat) : string :=
  string_of_list_ascii (map ascii_of_nat bytes).

(** The eight faces of [get_mood_emoji], as the bytes of the source's
    literals: U+1F480, U+1F635, U+1F634, U+1F622, U+1F60A, U+1F642, U+1F610
    and U+1F614. *)
Definition face_skull : string := utf8 [240; 159; 146; 128]%nat.
Definition face_dizzy : string := utf8 [240; 159; 152; 181]%nat.
Definition face_sleeping : string := utf8 [240; 159; 152; 180]%nat.
Definition face_crying : string := utf8 [240; 159; 152; 162]%nat.
Definition face_smiling : string := utf8 [240; 159; 152; 138]%nat.
Definition face_slight_smile : string := utf8 [240; 159; 153; 130]%nat.
Definition face_neutral : string := utf8 [240; 159; 152; 144]%nat.
Definition face_pensive : string := utf8 [240; 159; 152; 148]%nat.

Definition get_mood_emoji (s : TamagotchiState) : string :=
  if negb (is_alive s) then face_skull
  else if (hunger s >=? 90)%Z then face_dizzy
  else if (energy s <=? 10)%Z then face_sleeping
  else if (happiness s <=? 10)%Z then face_crying
  else if ((happiness s >=? 80) && (energy s >=? 70))%Z then face_smiling
  else if (happiness s >=? 60)%Z then face_slight_smile
  else if (happiness s >=? 40)%Z then face_neutral
  else face_pensive.

Definition should_die (s : TamagotchiState) : bool :=
  ((hunger s >=? 100) || (happiness s <=? 0) || (energy s <=? 0))%Z.

(** [self.current_mood = mood] *)
Definition set_current_mood (mood : string) (s : TamagotchiState) : TamagotchiState :=
  {| name := name s; age := age s;
     hunger := hunger s; happiness := happiness s; energy := energy s;
     is_alive := is_alive s; current_mood := mood;
     last_fed := last_fed s; last_played := last_played s; last_slept := last_slept s;
     last_pet := last_pet s; created_at := created_at s;
     total_interactions := total_interactions s; deaths := deaths s |}.

(** [kill]: assignments are not validated, and nothing looks whether the
    pet is already dead. *)
Definition kill (s : TamagotchiState) : TamagotchiState :=
  {| name := name s; age := age s;
     hunger := hunger s; happiness := happiness s; energy := energy s;
     is_alive := false; current_mood := face_skull;
     last_fed := last_fed s; last_played := last_played s; last_slept := last_slept s;
     last_pet := last_pet s; created_at := created_at s;
     total_interactions := total_interactions s; deaths := (deaths s + 1)%Z |}.

(** [TamagotchiState.revive]: the four assignments, then the mood of the
    state they give.  ([revive] alone names the engine's method.) *)
Definition revive_state (s : TamagotchiState) : TamagotchiState :=
  let s' :=
    {| name := name s; age := age s;
       hunger := 60%Z; happiness := 50%Z; energy := 70%Z;
       is_alive := true; current_mood := current_mood s;
       last_fed := last_fed s; last_played := last_played s; last_slept := last_slept s;
       last_pet := last_pet s; created_at := created_at s;
       total_interactions := total_interactions s; deaths := deaths s |} in
  set_current_mood (get_mood_emoji s') s'.

Definition update_mood (s : TamagotchiState) : TamagotchiState :=
  set_current_mood (get_mood_emoji s) s.

(** The three methods that write to the state, and runs of them. *)
Inductive PetCall : Type := CallKill | CallRevive | CallUpdateMood.

Definition pet_call (c : PetCall) (s : TamagotchiState) : TamagotchiState :=
  match c with
  | CallKill => kill s
  | CallRevive => revive_state s
  | CallUpdateMood => update_mood s
  end.

Definition pet_calls (cs : list PetCall) (s : TamagotchiState) : TamagotchiState :=
  fold_left (fun st c => pet_call c st) cs s.

Definition is_kill (c : PetCall) : bool :=
  match c with CallKill => true | _ => false end.

(** The bounds the three stat fields declare ([ge=0], [le=100]). *)
Definition stats_in_bounds (s : TamagotchiState) : Prop :=
  (0 <= hunger s <= 100 /\ 0 <= happiness s <= 100 /\ 0 <= energy s <= 100)%Z.

End Pet.

(** ** The REST routes of [app/main.py] that read the state or run an action *)

(** What the body of a route can raise: what a call it makes raised, or an
    [HTTPException] of its own.  Both derive from [Exception]. *)
Inductive Raisable : Type :=
| Failure (e : exn)
| HTTPException (status_code : nat) (detail : string).

(** [str(e)] *)
Class ExceptionText : Type := {
  str_of : Raisable -> string
}.

(** What the client of a route gets: the returned [dict] as a 200, or the
    status and detail of the [HTTPException] that left the route. *)
Inductive HttpResponse : Type :=
| JSONResponse (body : Dict)
| HTTPError (status_code : nat) (detail : string).

Section Routes.
Context {py : PyRuntime} {xt : ExceptionText}
        {E L : Type} {GE : GameEngine E} {LC : LLMClient L}.

Local Notation World := (World E L) (only parsing).
Local Notation Async := (@Async E L) (only parsing).

(** The body of a route, inside its [try]. *)
Definition Route (A : Type) : Type := World -> (A + Raisable) * World.

Definition route_ret {A} (a : A) : Route A := fun w => (inl a, w).

Definition route_raise {A} (e : Raisable) : Route A := fun w => (inr e, w).

Definition route_bind {A B} (m : Route A) (k : A -> Route B) : Route B :=
  fun w =>
    match m w with
    | (inl a, w') => k a w'
    | (inr e, w') => (inr e, w')
    end.

(** An awaited call of a collaborator. *)
Definition await {A} (m : Async A) : Route A :=
  fun w =>
    match m w with
    | (Returned a, w') => (inl a, w')
    | (Raised e, w') => (inr (Failure e), w')
    end.

(** [except Exception as e: raise HTTPException(status_code=500,
    detail=str(e))], around the body of every route below. *)
Definition route (body : Route Dict) : World -> HttpResponse * World :=
  fun w =>
    match body w with
    | (inl d, w') => (JSONResponse d, w')
    | (inr e, w') => (HTTPError 500 (str_of e), w')
    end.

(** [state.to_dict()] where nothing has looked whether [state] is [None]. *)
Definition state_to_dict (state : option TamagotchiState) : Route Dict :=
  match state with
  | Some s => route_ret (to_dict s)
  | None => route_raise (Failure AttributeError)
  end.

Definition get_tamagotchi_state : World -> HttpResponse * World :=
  route
    (route_bind (await call_get_state) (fun state =>
     match state with
     | None => route_raise (HTTPException 404 "No Tamagotchi found")
     | Some s =>
         route_ret [ ("success", VBool true); ("tamagotchi", VDict (to_dict s)) ]
     end)).

Definition action_name (a : Action) : string :=
  match a with
  | Feed => "feed"
  | Play => "play"
  | Sleep => "sleep"
  | Pet => "pet"
  | Revive => "revive"
  end.

(** The body shared, word for word but for the engine method and the action
    name, by the five action routes. *)
Definition action_route (a : Action) : World -> HttpResponse * World :=
  route
    (route_bind (await (call_action a)) (fun result =>
     route_bind (await call_get_state) (fun state =>
     route_bind (await (call_get_response state (VStr (action_name a)) (Some result) None))
                (fun llm_response =>
     route_bind (state_to_dict state) (fun tamagotchi =>
     route_ret [ ("success", VBool (success result));
                 ("message", VStr (message result));
                 ("stat_changes", VDict (stat_changes result));
                 ("tamagotchi", VDict tamagotchi);
                 ("response", VStr llm_response) ]))))).

Definition feed_tamagotchi : World -> HttpResponse * World := action_route Feed.
Definition play_with_tamagotchi : World -> HttpResponse * World := action_route Play.
Definition sleep_tamagotchi : World -> HttpResponse * World := action_route Sleep.
Definition pet_tamagotchi : World -> HttpResponse * World := action_route Pet.
Definition revive_tamagotchi : World -> HttpResponse * World := action_route Revive.

(** ** What a coroutine may do to the registry *)

(** The coroutine adds no entry to the registry: every socket is in it at
    most as often as before.  It leaves the transport as it found it, and
    the trace it found is the beginning of the trace it leaves. *)
Definition only_removes {A} (m : Async A) : Prop :=
  forall w,
    (forall c, count_occ Nat.eq_dec (active_connections (snd (m w))) c
               <= count_occ Nat.eq_dec (active_connections w) c)
    /\ send_fault (snd (m w)) = send_fault w
    /\ accept_fault (snd (m w)) = accept_fault w
    /\ exists evs, trace (snd (m w)) = (trace w ++ evs)%list.

(** The registry without the entries whose [send_text] raises. *)
Definition healthy_members (faults : WebSocket -> option exn) (members : list WebSocket)
  : list WebSocket :=
  filter (fun c => negb (faulty faults c)) members.

End Routes.

(** ** Concrete instances, used to run the definitions *)

Module Fixture.

Definition dq : string := String (ascii_of_nat 34) EmptyString.

Definition quoted (s : string) : string := dq ++ s ++ dq.

(** [{"type": t}] *)
Definition frame1 (t : string) : string :=
  "{" ++ quoted "type" ++ ": " ++ quoted t ++ "}".

(** [{"type": t, k: v}] *)
Definition frame2 (t k v : string) : string :=
  "{" ++ quoted "type" ++ ": " ++ quoted t ++ ", "
      ++ quoted k ++ ": " ++ quoted v ++ "}".

(** The frames the toy parser knows; anything else is not JSON for it. *)
Definition known_frames : list (string * value) :=
  [ (frame1 "ping", VDict [("type", VStr "ping")]);
    (frame1 "get_state", VDict [("type", VStr "get_state")]);
    (frame1 "action", VDict [("type", VStr "action")]);
    (frame2 "action" "action" "feed",
     VDict [("type", VStr "action"); ("action", VStr "feed")]);
    (frame2 "action" "action" "fly",
     VDict [("type", VStr "action"); ("action", VStr "fly")]);
    (frame2 "chat" "message" "hello",
     VDict [("type", VStr "chat"); ("message", VStr "hello")]);
    ("[1, 2]", VList [VInt 1; VInt 2]);
    ("42", VInt 42);
    ("null", VNone) ].

Fixpoint lookup_frame (table : list (string * value)) (data : string) : option value :=
  match table with
  | [] => None
  | (f, v) :: rest => if String.eqb f data then Some v else lookup_frame rest data
  end.

(** Two thousand opening brackets: not JSON, and too deep for the parser,
    which gives up with a [RecursionError] before it can say so. *)
Definition deeply_nested : string :=
  string_of_list_ascii (repeat "["%char 2000).

(** Renders the type and the text of a message, enough to tell frames apart. *)
Definition render (v : value) : string :=
  match v with
  | VDict d =>
      match get d "type", get d "message" with
      | VStr t, VStr m => t ++ ": " ++ m
      | VStr t, _ => t
      | _, _ => "?"
      end
  | _ => "?"
  end.

Definition toy_py : PyRuntime :=
  {| json_loads := lookup_frame known_frames;
     json_loads_error := fun data =>
       if String.eqb data deeply_nested then OtherError "RecursionError"
       else JSONDecodeError;
     json_dumps := render;
     py_repr := fun _ => "<repr>";
     isoformat := fun t => "T" ++ String (ascii_of_nat (48 + t)) EmptyString |}.

Definition pet_state (fed : nat) : TamagotchiState :=
  {| name := "Tama"; age := 0; hunger := 50 - Z.of_nat fed; happiness := 75;
     energy := 100; is_alive := true; current_mood := ":)";
     last_fed := fed; last_played := 0; last_slept := 0; last_pet := 0;
     created_at := 0; total_interactions := Z.of_nat fed; deaths := 0 |}.

Definition done (text : string) : ActionResult :=
  {| success := true; message := text; stat_changes := [("hunger", VInt (-1))];
     new_mood := ":)"; timestamp := 0 |}.

(** An engine that counts the meals of its pet. *)
Definition toy_engine : GameEngine nat :=
  {| get_state := fun n => (Returned (Some (pet_state n)), n);
     feed := fun n => (Returned (done "fed"), S n);
     play := fun n => (Returned (done "played"), n);
     sleep := fun n => (Returned (done "slept"), n);
     pet := fun n => (Returned (done "petted"), n);
     revive := fun n => (Returned (done "revived"), n) |}.

(** An engine whose every call raises. *)
Definition broken_engine (e : exn) : GameEngine nat :=
  {| get_state := fun n => (Raised e, n);
     feed := fun n => (Raised e, n);
     play := fun n => (Raised e, n);
     sleep := fun n => (Raised e, n);
     pet := fun n => (Raised e, n);
     revive := fun n => (Raised e, n) |}.

Definition toy_llm : LLMClient unit :=
  {| get_response := fun _ _ _ _ u => (Returned "purr", u) |}.

(** A client whose call raises [e], as one does whose backend answered
    with something that is not JSON. *)
Definition broken_llm (e : exn) : LLMClient unit :=
  {| get_response := fun _ _ _ _ u => (Raised e, u) |}.

Definition no_fault : WebSocket -> option exn := fun _ => None.

(** Only socket [bad] has a dead link. *)
Definition dead_link (bad : WebSocket) : WebSocket -> option exn :=
  fun ws => if Nat.eqb ws bad then Some WebSocketDisconnect else None.

Definition world (members : list WebSocket) (faults : WebSocket -> option exn)
  : World nat unit :=
  mkWorld members no_fault faults 0 0 tt [].

End Fixture.

(** More instances: a runtime whose ISO strings tell times apart, and the
    text of exceptions. *)
Module Bench.

Fixpoint tally (t : nat) : string :=
  match t with
  | O => "T"
  | S t' => String "I" (tally t')
  end.

(** The frames of [Fixture], and two more. *)
Definition bench_frames : list (string * value) :=
  (Fixture.frame1 "dance", VDict [("type", VStr "dance")])
    :: ("{}", VDict [])
    :: Fixture.known_frames.

Definition bench_py : PyRuntime :=
  {| json_loads := Fixture.lookup_frame bench_frames;
     json_loads_error := fun _ => JSONDecodeError;
     json_dumps := Fixture.render;
     py_repr := fun _ => "<repr>";
     isoformat := tally |}.

(** A world whose transport refuses the handshake of [refused]. *)
Definition world_refusing (refused : WebSocket) (members : list WebSocket)
  : World nat unit :=
  mkWorld members (Fixture.dead_link refused) Fixture.no_fault 0 0 tt [].

Definition toy_text : ExceptionText :=
  {| str_of := fun e =>
       match e with
       | Failure JSONDecodeError => "Expecting value"
       | Failure AttributeError => "'NoneType' object has no attribute 'to_dict'"
       | Failure WebSocketDisconnect => "disconnected"
       | Failure (OtherError text) => text
       | HTTPException _ detail => "HTTPException: " ++ detail
       end |}.

(** An engine that has no pet. *)
Definition empty_engine : GameEngine nat :=
  {| get_state := fun n => (Returned None, n);
     feed := fun n => (Returned (Fixture.done "fed"), S n);
     play := fun n => (Returned (Fixture.done "played"), S n);
     sleep := fun n => (Returned (Fixture.done "slept"), S n);
     pet := fun n => (Returned (Fixture.done "petted"), S n);
     revive := fun n => (Returned (Fixture.done "revived"), S n) |}.

(** A pet with the given stats. *)
Definition pet_with (alive : bool) (h p e : Z) : TamagotchiState :=
  {| name := "Tama"; age := 3; hunger := h; happiness := p; energy := e;
     is_alive := alive; current_mood := "?";
     last_fed := 1; last_played := 2; last_slept := 3; last_pet := 4;
     created_at := 0; total_interactions := 5; deaths := 0 |}.

End Bench.

(** * Properties *)

Unset Implicit Arguments.

Section Properties.
Context {py : PyRuntime} {E L : Type} {GE : GameEngine E} {LC : LLMClient L}.

Implicit Types (w : World E L) (ws c bad : WebSocket) (l members : list WebSocket).

(** ** Lists of sockets *)

Lemma contains_In l c : contains l c = true <-> In c l.
Proof.
  unfold contains. rewrite existsb_exists. split.
  - intros [y [Hy Heq]]. apply Nat.eqb_eq in Heq. now subst.
  - intros H. exists c. split; [assumption | apply Nat.eqb_refl].
Qed.

Lemma list_remove_absent l c : ~ In c l -> list_remove c l = l.
Proof.
  induction l as [|y l IH]; simpl; intros H; [reflexivity|].
  destruct (Nat.eqb_spec c y) as [->|Hne].
  - exfalso. apply H. now left.
  - f_equal. apply IH. intros Hin. apply H. now right.
Qed.

Lemma list_remove_middle pre post c :
  ~ In c pre -> list_remove c (pre ++ c :: post) = (pre ++ post)%list.
Proof.
  induction pre as [|y pre IH]; simpl; intros H.
  - now rewrite Nat.eqb_refl.
  - destruct (Nat.eqb_spec c y) as [->|Hne].
    + exfalso. apply H. now left.
    + f_equal. apply IH. intros Hin. apply H. now right.
Qed.

Lemma list_remove_In l c x : In x (list_remove c l) -> In x l.
Proof.
  induction l as [|y l IH]; simpl; [tauto|].
  destruct (Nat.eqb_spec c y); simpl; intuition.
Qed.

Lemma list_remove_NoDup l c : NoDup l -> NoDup (list_remove c l).
Proof.
  induction 1 as [|y l Hy Hl IH]; simpl; [constructor|].
  destruct (Nat.eqb_spec c y); [assumption|].
  constructor; [|assumption].
  intros Hin. apply Hy. eapply list_remove_In; eassumption.
Qed.

Lemma list_remove_In_iff l c x :
  NoDup l -> (In x (list_remove c l) <-> In x l /\ x <> c).
Proof.
  induction 1 as [|y l Hy Hl IH]; simpl; [tauto|].
  destruct (Nat.eqb_spec c y) as [->|Hne]; simpl.
  - split.
    + intros Hin. split; [now right|]. intros ->. contradiction.
    + intros [[Heq|Hin] Hne]; [congruence | assumption].
  - rewrite IH. split.
    + intros [Heq|[Hin Hx]]; [subst; split; [now left | congruence] | tauto].
    + intros [[Heq|Hin] Hx]; [now left | right; tauto].
Qed.

(** ** Worlds *)

Lemma record_nil w : record [] w = w.
Proof. destruct w. unfold record. simpl. now rewrite app_nil_r. Qed.

Lemma record_record evs1 evs2 w :
  record evs2 (record evs1 w) = record (evs1 ++ evs2) w.
Proof. unfold record. simpl. now rewrite app_assoc. Qed.

Lemma set_connections_same w : set_connections (active_connections w) w = w.
Proof. now destruct w. Qed.

Lemma set_connections_record l evs w :
  record evs (set_connections l w) = set_connections l (record evs w).
Proof. reflexivity. Qed.

(** ** What each [ConnectionManager] method does to the world *)

Lemma connect_run ws w :
  connect ws w =
  match accept_fault w ws with
  | None => (Returned tt,
             set_connections (active_connections w ++ [ws])
                             (record [EvAccept ws] (handshake_done ws w)))
  | Some e => (Raised e, w)
  end.
Proof.
  unfold connect, bind, accept. now destruct (accept_fault w ws).
Qed.

Lemma send_text_run ws frame w :
  send_text ws frame w =
  (match send_fault w ws with None => Returned tt | Some e => Raised e end,
   record [EvSend ws frame (negb (faulty (send_fault w) ws))] w).
Proof.
  unfold send_text, faulty, bind, emit, raise. now destruct (send_fault w ws).
Qed.

Lemma disconnect_run ws w :
  disconnect ws w =
  (Returned tt,
   set_connections (list_remove ws (active_connections w)) (record [EvDisconnect ws] w)).
Proof.
  unfold disconnect, bind, emit.
  destruct (contains (active_connections w) ws) eqn:Hc; [reflexivity|].
  rewrite list_remove_absent.
  - now rewrite <- (set_connections_same (record _ w)) at 1.
  - intros Hin. apply contains_In in Hin. congruence.
Qed.

Lemma broadcast_sweep_run frame members d w :
  broadcast_sweep frame members d w =
  (Returned (d ++ dropped (send_fault w) members)%list, record (sweep_events (send_fault w) frame members) w).
Proof.
  revert d w. induction members as [|c members IH]; intros d w.
  - simpl. unfold ret. now rewrite app_nil_r, record_nil.
  - cbn [broadcast_sweep]. unfold bind, try_except, ret. rewrite send_text_run.
    unfold dropped, sweep_events. cbn [filter map].
    assert (Hf : faulty (send_fault w) c = match send_fault w c with Some _ => true | None => false end)
      by reflexivity.
    destruct (send_fault w c) as [e|]; rewrite Hf; cbn [negb];
      rewrite IH, record_record.
    + rewrite <- app_assoc. reflexivity.
    + reflexivity.
Qed.

Lemma broadcast_cleanup_run ds w :
  broadcast_cleanup ds w =
  (Returned tt,
   set_connections (remove_each ds (active_connections w)) (record (map EvDisconnect ds) w)).
Proof.
  revert w. induction ds as [|c ds IH]; intros w.
  - simpl. unfold ret. now rewrite record_nil, set_connections_same.
  - cbn [broadcast_cleanup]. unfold bind. rewrite disconnect_run, IH.
    cbn [map]. rewrite set_connections_record, record_record. reflexivity.
Qed.

Lemma broadcast_run msg w :
  broadcast msg w =
  (Returned tt,
   set_connections
     (survivors (send_fault w) (active_connections w))
     (record (broadcast_events (send_fault w) (active_connections w) msg) w)).
Proof.
  unfold broadcast, bind at 1, emit. cbn [active_connections record].
  destruct (active_connections w) as [|c rest] eqn:Hm.
  - unfold broadcast_events, survivors.
    cbn [dropped filter sweep_events map app remove_each fold_left].
    rewrite <- Hm. rewrite <- set_connections_record, set_connections_same.
    reflexivity.
  - unfold bind. rewrite broadcast_sweep_run, broadcast_cleanup_run.
    rewrite !record_record. cbn [active_connections send_fault record app].
    unfold broadcast_events, survivors. rewrite Hm. reflexivity.
Qed.

Lemma send_personal_message_run msg ws w :
  send_personal_message msg ws w =
  (Returned tt,
   set_connections
     (if faulty (send_fault w) ws then list_remove ws (active_connections w) else active_connections w)
     (record (personal_events (send_fault w) msg ws) w)).
Proof.
  unfold send_personal_message, bind, emit, try_except, personal_events.
  rewrite send_text_run. cbn [send_fault record].
  assert (Hf : faulty (send_fault w) ws = match send_fault w ws with Some _ => true | None => false end)
    by reflexivity.
  destruct (send_fault w ws) as [e|]; rewrite Hf; cbn [negb].
  - rewrite disconnect_run.
    rewrite !record_record. reflexivity.
  - rewrite record_record.
    now rewrite <- (set_connections_same (record _ w)) at 1.
Qed.

(** ** Reading the trace of a sweep *)

Lemma received_app c tr1 tr2 :
  received c (tr1 ++ tr2) = (received c tr1 ++ received c tr2)%list.
Proof. unfold received. apply flat_map_app. Qed.

Lemma received_failed c x frame tr :
  received c (EvSend x frame false :: tr) = received c tr.
Proof. reflexivity. Qed.

Lemma received_delivered_absent c frame l :
  ~ In c l -> received c (map (fun x => EvSend x frame true) l) = [].
Proof.
  induction l as [|y l IH]; simpl; intros H; [reflexivity|].
  destruct (Nat.eqb_spec y c) as [->|Hne].
  - exfalso. apply H. now left.
  - apply IH. intros Hin. apply H. now right.
Qed.

Lemma received_delivered_once c frame l :
  NoDup l -> In c l -> received c (map (fun x => EvSend x frame true) l) = [frame].
Proof.
  induction 1 as [|y l Hy Hl IH]; simpl; [tauto|].
  intros [->|Hin].
  - rewrite Nat.eqb_refl. simpl. f_equal. now apply received_delivered_absent.
  - destruct (Nat.eqb_spec y c) as [->|Hne]; [contradiction|]. now apply IH.
Qed.

Lemma dropped_healthy w l :
  (forall c, In c l -> send_fault w c = None) -> dropped (send_fault w) l = [].
Proof.
  induction l as [|y l IH]; simpl; intros H; [reflexivity|].
  unfold faulty at 1. rewrite (H y (or_introl eq_refl)).
  apply IH. intros c Hc. apply H. now right.
Qed.

Lemma sweep_events_healthy w frame l :
  (forall c, In c l -> send_fault w c = None) ->
  sweep_events (send_fault w) frame l = map (fun c => EvSend c frame true) l.
Proof.
  intros H. unfold sweep_events. apply map_ext_in. intros c Hc.
  unfold faulty. now rewrite (H c Hc).
Qed.

Lemma dropped_app w l1 l2 : dropped (send_fault w) (l1 ++ l2) = (dropped (send_fault w) l1 ++ dropped (send_fault w) l2)%list.
Proof. apply filter_app. Qed.

Lemma sweep_events_app w frame l1 l2 :
  sweep_events (send_fault w) frame (l1 ++ l2)
  = (sweep_events (send_fault w) frame l1 ++ sweep_events (send_fault w) frame l2)%list.
Proof. apply map_app. Qed.

(** ** The broadcast sweep *)

(** C1.  A broadcast over a registry of distinct sockets of which exactly
    one, [bad], has a failing [send_text]: every other member receives the
    serialized message exactly once, the members that come after [bad] are
    still attempted, [bad] is removed only once all the attempts are made,
    and the registry ends one shorter. *)
Theorem broadcast_one_failure msg w before after bad e :
  active_connections w = (before ++ bad :: after)%list ->
  NoDup (active_connections w) ->
  send_fault w bad = Some e ->
  (forall c, In c (before ++ after) -> send_fault w c = None) ->
  let frame := json_dumps (VDict msg) in
  let attempts_made :=
    (map (fun c => EvSend c frame true) before
       ++ EvSend bad frame false
       :: map (fun c => EvSend c frame true) after)%list in
  exists w',
    broadcast msg w = (Returned tt, w')
    /\ trace w' = (trace w ++ EvBroadcast (VDict msg) :: attempts_made
                            ++ [EvDisconnect bad])%list
    /\ (forall c, In c (before ++ after) -> received c attempts_made = [frame])
    /\ received bad attempts_made = []
    /\ active_connections w' = (before ++ after)%list
    /\ get_connection_count w = S (get_connection_count w')
    /\ ~ In bad (active_connections w').
Proof.
  intros Hm Hnd Hbad Hok frame attempts_made.
  rewrite Hm in Hnd.
  pose proof (NoDup_remove_1 _ _ _ Hnd) as Hnd'.
  pose proof (NoDup_remove_2 _ _ _ Hnd) as Hnotin.
  assert (Hpre : forall c, In c before -> send_fault w c = None)
    by (intros c Hc; apply Hok, in_or_app; now left).
  assert (Hpost : forall c, In c after -> send_fault w c = None)
    by (intros c Hc; apply Hok, in_or_app; now right).
  assert (Hfb : faulty (send_fault w) bad = true) by (unfold faulty; now rewrite Hbad).
  assert (Hdrop : dropped (send_fault w) (before ++ bad :: after) = [bad]).
  { rewrite dropped_app. cbn [dropped filter]. rewrite Hfb.
    fold (dropped (send_fault w) before). fold (dropped (send_fault w) after).
    now rewrite !dropped_healthy by assumption. }
  assert (Hsweep : sweep_events (send_fault w) frame (before ++ bad :: after) = attempts_made).
  { rewrite sweep_events_app. unfold attempts_made. cbn [sweep_events map].
    rewrite Hfb. fold (sweep_events (send_fault w) frame before). fold (sweep_events (send_fault w) frame after).
    now rewrite !sweep_events_healthy by assumption. }
  assert (Hrecv : forall c, c <> bad ->
            received c attempts_made
            = received c (map (fun x => EvSend x frame true) (before ++ after))).
  { intros c Hc. unfold attempts_made.
    now rewrite map_app, !received_app, received_failed. }
  eexists. split; [apply broadcast_run|].
  cbn [trace active_connections set_connections record].
  unfold broadcast_events, survivors. rewrite Hm, Hdrop. fold frame. rewrite Hsweep.
  cbn [remove_each fold_left map].
  rewrite list_remove_middle
    by (intros Hin; apply Hnotin, in_or_app; now left).
  repeat split.
  - intros c Hc. rewrite Hrecv.
    + now apply received_delivered_once.
    + intros ->. contradiction.
  - unfold attempts_made. rewrite received_app, received_failed.
    rewrite !received_delivered_absent; [reflexivity | |].
    + intros Hin. apply Hnotin, in_or_app. now right.
    + intros Hin. apply Hnotin, in_or_app. now left.
  - unfold get_connection_count, set_connections. cbn [active_connections].
    rewrite Hm, !length_app. simpl. lia.
  - exact Hnotin.
Qed.

(** ** The registry under sequences of calls *)

Lemma registry_call_run rc w :
  registry_call rc w =
  match rc with
  | Connect ws =>
      match accept_fault w ws with
      | None => (Returned tt,
                 set_connections (active_connections w ++ [ws])
                                 (record [EvAccept ws] (handshake_done ws w)))
      | Some e => (Raised e, w)
      end
  | Disconnect ws =>
      (Returned tt,
       set_connections (list_remove ws (active_connections w)) (record [EvDisconnect ws] w))
  end.
Proof.
  destruct rc as [ws|ws]; cbn [registry_call]; [apply connect_run | apply disconnect_run].
Qed.

Lemma NoDup_snoc l c : NoDup l -> ~ In c l -> NoDup (l ++ [c]).
Proof.
  intros Hl Hc. apply NoDup_app; [assumption | repeat constructor; tauto |].
  intros x Hx [->|[]]. contradiction.
Qed.

(** A socket that is registered cannot be connected again. *)
Lemma connect_registered_raises ws w :
  registered_are_connected w -> In ws (active_connections w) ->
  exists e, connect ws w = (Raised e, w).
Proof.
  intros Hinv Hin. rewrite connect_run. specialize (Hinv ws Hin).
  destruct (accept_fault w ws) as [e|]; [now exists e | congruence].
Qed.

(** The two facts that travel together: no duplicates, and every
    registered socket past its handshake. *)
Lemma registry_call_invariant rc w :
  NoDup (active_connections w) -> registered_are_connected w ->
  NoDup (active_connections (snd (registry_call rc w)))
  /\ registered_are_connected (snd (registry_call rc w)).
Proof.
  intros Hnd Hinv. rewrite registry_call_run. destruct rc as [ws|ws].
  - destruct (accept_fault w ws) as [e|] eqn:Hacc; [now split|].
    cbn [snd]. split.
    + cbn [active_connections set_connections]. apply NoDup_snoc; [assumption|].
      intros Hin. now apply (Hinv ws Hin).
    + intros c Hc.
      cbn [active_connections accept_fault set_connections record handshake_done] in *.
      destruct (Nat.eqb_spec c ws) as [->|Hne]; [discriminate|].
      apply Hinv. apply in_app_or in Hc. destruct Hc as [Hc|[Hc|[]]]; [assumption | congruence].
  - cbn [snd]. split.
    + cbn [active_connections set_connections]. now apply list_remove_NoDup.
    + intros c Hc. cbn [active_connections accept_fault set_connections record] in *.
      apply Hinv. eapply list_remove_In; eassumption.
Qed.

Lemma registry_calls_invariant cs w :
  NoDup (active_connections w) -> registered_are_connected w ->
  NoDup (active_connections (registry_calls cs w))
  /\ registered_are_connected (registry_calls cs w).
Proof.
  revert w. induction cs as [|rc cs IH]; intros w Hnd Hinv; [now split|].
  cbn [registry_calls].
  destruct (registry_call_invariant rc w Hnd Hinv) as [Hnd1 Hinv1].
  now apply IH.
Qed.

(** C3.  Whatever calls to [connect] and [disconnect] are made, in whatever
    order and on whatever sockets, every socket is in the registry at most
    once and the count counts no socket twice.  [connect] appends without
    looking, but it appends after the handshake only, and a socket takes its
    handshake once: a [connect] for a registered socket raises and leaves
    the registry as it is.  The starting point is any registry in the state
    [connect] and [disconnect] leave it in, the empty one to begin with. *)
Theorem registry_without_duplicates cs w :
  NoDup (active_connections w) ->
  registered_are_connected w ->
  let w' := registry_calls cs w in
  NoDup (active_connections w')
  /\ (forall ws, count_occ Nat.eq_dec (active_connections w') ws <= 1)
  /\ get_connection_count w' = List.length (nodup Nat.eq_dec (active_connections w'))
  /\ (forall ws, In ws (active_connections w') ->
        exists e, connect ws w' = (Raised e, w'))
  /\ registered_are_connected w'.
Proof.
  intros Hnd Hinv w'.
  destruct (registry_calls_invariant cs w Hnd Hinv) as [Hnd' Hinv'].
  split; [assumption|]. split; [now apply NoDup_count_occ|].
  split; [unfold get_connection_count; now rewrite nodup_fixed_point|].
  split; [|assumption].
  intros ws Hin. now apply connect_registered_raises.
Qed.

Lemma contains_snoc l c ws :
  contains (l ++ [c]) ws = if Nat.eqb c ws then true else contains l ws.
Proof.
  unfold contains. rewrite existsb_app. simpl. rewrite orb_false_r.
  rewrite (Nat.eqb_sym ws c). destruct (Nat.eqb c ws); [apply orb_true_r | apply orb_false_r].
Qed.

Lemma contains_list_remove l c ws :
  NoDup l ->
  contains (list_remove c l) ws = if Nat.eqb c ws then false else contains l ws.
Proof.
  intros Hnd.
  destruct (contains (list_remove c l) ws) eqn:Hc.
  - apply contains_In, (list_remove_In_iff l c ws Hnd) in Hc. destruct Hc as [Hin Hne].
    destruct (Nat.eqb_spec c ws); [congruence|].
    symmetry. now apply contains_In.
  - destruct (Nat.eqb_spec c ws) as [->|Hne]; [reflexivity|].
    destruct (contains l ws) eqn:Hl; [|reflexivity].
    apply contains_In in Hl.
    assert (Hin : In ws (list_remove c l))
      by (apply list_remove_In_iff; [assumption | split; [assumption | congruence]]).
    apply contains_In in Hin. congruence.
Qed.

Lemma registry_calls_membership cs w ws :
  NoDup (active_connections w) ->
  registered_are_connected w ->
  (In ws (active_connections (registry_calls cs w))
   <-> registered_after (completed cs w) ws (contains (active_connections w) ws) = true).
Proof.
  revert w. induction cs as [|rc cs IH]; intros w Hnd Hinv.
  - cbn. symmetry. apply contains_In.
  - destruct (registry_call_invariant rc w Hnd Hinv) as [Hnd1 Hinv1].
    cbn [registry_calls completed]. rewrite (IH _ Hnd1 Hinv1).
    revert Hnd1 Hinv1. rewrite registry_call_run. intros _ _.
    destruct rc as [c|c].
    + destruct (accept_fault w c); [reflexivity|].
      cbn [snd active_connections set_connections registered_after].
      now rewrite contains_snoc.
    + cbn [snd active_connections set_connections registered_after].
      now rewrite contains_list_remove.
Qed.

Lemma registered_after_mentions cs ws b :
  registered_after cs ws b = true -> b = true \/ In ws (map socket_of cs).
Proof.
  revert b. induction cs as [|rc cs IH]; intros b H; [now left|].
  destruct rc as [c|c]; cbn [registered_after] in H; apply IH in H;
    cbn [map socket_of In]; destruct (Nat.eqb_spec c ws); intuition congruence.
Qed.

Lemma still_registered_In cs ws :
  In ws (still_registered cs) <-> registered_after cs ws false = true.
Proof.
  unfold still_registered. rewrite nodup_In, filter_In. split; [tauto|].
  intros H. split; [|assumption].
  destruct (registered_after_mentions _ _ _ H); [discriminate | assumption].
Qed.

Lemma disconnect_twice l c :
  NoDup l -> list_remove c (list_remove c l) = list_remove c l.
Proof.
  intros Hnd. apply list_remove_absent.
  rewrite list_remove_In_iff by assumption. tauto.
Qed.

(** C8.  From the empty registry, after any calls to [connect] and
    [disconnect], the count is the number of distinct sockets that were
    registered, by a [connect] that returned, and not deregistered since: a
    refused handshake registers nothing, and a socket is never there twice.
    [disconnect] never raises, leaves the registry alone when the socket is
    absent, and does nothing more the second time. *)
Theorem count_of_registrations cs w :
  active_connections w = [] ->
  let w' := registry_calls cs w in
  let registered := still_registered (completed cs w) in
  get_connection_count w' = List.length registered
  /\ (forall ws, In ws (active_connections w') <-> In ws registered)
  /\ NoDup registered
  /\ (forall ws, fst (disconnect ws w') = Returned tt)
  /\ (forall ws, ~ In ws (active_connections w') ->
                 active_connections (snd (disconnect ws w')) = active_connections w')
  /\ (forall ws, active_connections (snd (disconnect ws (snd (disconnect ws w'))))
                 = active_connections (snd (disconnect ws w'))).
Proof.
  intros Hempty w' registered.
  assert (Hnd : NoDup (active_connections w)) by (rewrite Hempty; constructor).
  assert (Hinv : registered_are_connected w)
    by (intros ws Hin; rewrite Hempty in Hin; contradiction).
  destruct (registry_calls_invariant cs w Hnd Hinv) as [Hnd' _]. fold w' in Hnd'.
  assert (Hmem : forall ws, In ws (active_connections w') <-> In ws registered).
  { intros ws. unfold w', registered. rewrite registry_calls_membership by assumption.
    rewrite Hempty. cbn [contains existsb]. symmetry. apply still_registered_In. }
  split; [|split; [exact Hmem|split; [apply NoDup_nodup|split; [|split]]]].
  - unfold get_connection_count. apply Permutation_length.
    apply NoDup_Permutation; [assumption | apply NoDup_nodup | exact Hmem].
  - intros ws. now rewrite disconnect_run.
  - intros ws Hws. rewrite disconnect_run. cbn [snd active_connections set_connections].
    now apply list_remove_absent.
  - intros ws. rewrite !disconnect_run. cbn [snd active_connections set_connections record].
    now apply disconnect_twice.
Qed.

(** ** Reading the events of a broadcast and of a personal send *)

Lemma broadcasts_app tr1 tr2 :
  broadcasts (tr1 ++ tr2) = (broadcasts tr1 ++ broadcasts tr2)%list.
Proof. apply flat_map_app. Qed.

Lemma personals_app tr1 tr2 :
  personals (tr1 ++ tr2) = (personals tr1 ++ personals tr2)%list.
Proof. apply flat_map_app. Qed.

Lemma engine_calls_app tr1 tr2 :
  engine_calls (tr1 ++ tr2) = (engine_calls tr1 ++ engine_calls tr2)%list.
Proof. apply flat_map_app. Qed.

Lemma attempts_app tr1 tr2 :
  attempts (tr1 ++ tr2) = (attempts tr1 ++ attempts tr2)%list.
Proof. apply flat_map_app. Qed.

Lemma sweep_events_quiet faults frame members :
  broadcasts (sweep_events faults frame members) = []
  /\ personals (sweep_events faults frame members) = []
  /\ engine_calls (sweep_events faults frame members) = []
  /\ attempts (sweep_events faults frame members) = map (fun c => (c, frame)) members.
Proof.
  induction members as [|c members (Hb & Hp & He & Ha)]; cbn; repeat split; try assumption.
  f_equal. exact Ha.
Qed.

Lemma disconnect_events_quiet ds :
  broadcasts (map EvDisconnect ds) = []
  /\ personals (map EvDisconnect ds) = []
  /\ engine_calls (map EvDisconnect ds) = []
  /\ attempts (map EvDisconnect ds) = [].
Proof. induction ds as [|c ds IH]; cbn; [repeat split | exact IH]. Qed.

Lemma broadcast_events_read faults members msg :
  broadcasts (broadcast_events faults members msg) = [VDict msg]
  /\ personals (broadcast_events faults members msg) = []
  /\ engine_calls (broadcast_events faults members msg) = []
  /\ attempts (broadcast_events faults members msg)
     = map (fun c => (c, json_dumps (VDict msg))) members.
Proof.
  unfold broadcast_events.
  destruct (sweep_events_quiet faults (json_dumps (VDict msg)) members)
    as (Hb & Hp & He & Ha).
  destruct (disconnect_events_quiet (dropped faults members)) as (Hb' & Hp' & He' & Ha').
  cbn [broadcasts personals engine_calls attempts flat_map app].
  fold (broadcasts (sweep_events faults (json_dumps (VDict msg)) members
                      ++ map EvDisconnect (dropped faults members))).
  fold (personals (sweep_events faults (json_dumps (VDict msg)) members
                      ++ map EvDisconnect (dropped faults members))).
  fold (engine_calls (sweep_events faults (json_dumps (VDict msg)) members
                      ++ map EvDisconnect (dropped faults members))).
  fold (attempts (sweep_events faults (json_dumps (VDict msg)) members
                      ++ map EvDisconnect (dropped faults members))).
  rewrite broadcasts_app, personals_app, engine_calls_app, attempts_app.
  rewrite Hb, Hp, He, Ha, Hb', Hp', He', Ha'. cbn. now rewrite app_nil_r.
Qed.

Lemma personal_events_read faults msg ws :
  broadcasts (personal_events faults msg ws) = []
  /\ personals (personal_events faults msg ws) = [(ws, VDict msg)]
  /\ engine_calls (personal_events faults msg ws) = []
  /\ attempts (personal_events faults msg ws) = [(ws, json_dumps (VDict msg))]
  /\ (forall c, c <> ws -> received c (personal_events faults msg ws) = []).
Proof.
  unfold personal_events. destruct (faulty faults ws); cbn; repeat split.
  intros c Hc. destruct (Nat.eqb_spec ws c); [congruence | reflexivity].
Qed.

Lemma count_occ_list_remove_other l c x :
  x <> c -> count_occ Nat.eq_dec (list_remove c l) x = count_occ Nat.eq_dec l x.
Proof.
  intros Hne. induction l as [|y l IH]; [reflexivity|].
  cbn [list_remove]. destruct (Nat.eqb_spec c y) as [->|Hcy].
  - now rewrite count_occ_cons_neq by congruence.
  - cbn [count_occ]. destruct (Nat.eq_dec y x); now rewrite IH.
Qed.

(** A personal send touches the registry entry of its addressee only. *)
Lemma personal_registry_others faults l ws x :
  x <> ws ->
  count_occ Nat.eq_dec (if faulty faults ws then list_remove ws l else l) x
  = count_occ Nat.eq_dec l x.
Proof.
  intros Hne. destruct (faulty faults ws); [|reflexivity].
  now apply count_occ_list_remove_other.
Qed.

(** ** What a viewer with a working link gets from a broadcast *)

Lemma list_remove_In_other l c x : x <> c -> In x l -> In x (list_remove c l).
Proof.
  intros Hne. induction l as [|y l IH]; simpl; [tauto|].
  destruct (Nat.eqb_spec c y) as [->|Hcy].
  - intros [Heq|Hin]; [congruence | assumption].
  - intros [Heq|Hin]; [now left | right; now apply IH].
Qed.

Lemma remove_each_In ds l x : ~ In x ds -> In x l -> In x (remove_each ds l).
Proof.
  revert l. induction ds as [|c ds IH]; intros l Hds Hl; [assumption|].
  cbn [remove_each fold_left]. apply IH.
  - intros Hin. apply Hds. now right.
  - apply list_remove_In_other; [|assumption]. intros ->. apply Hds. now left.
Qed.

Lemma remove_each_NoDup ds l : NoDup l -> NoDup (remove_each ds l).
Proof.
  revert l. induction ds as [|c ds IH]; intros l Hl; [assumption|].
  cbn [remove_each fold_left]. now apply IH, list_remove_NoDup.
Qed.

Lemma survivors_In faults members c :
  In c members -> faults c = None -> In c (survivors faults members).
Proof.
  intros Hin Hok. apply remove_each_In; [|assumption].
  unfold dropped. rewrite filter_In. unfold faulty. rewrite Hok.
  intros [_ Hf]. discriminate.
Qed.

Lemma survivors_NoDup faults members :
  NoDup members -> NoDup (survivors faults members).
Proof. apply remove_each_NoDup. Qed.

Lemma received_sweep_absent faults frame members c :
  ~ In c members -> received c (sweep_events faults frame members) = [].
Proof.
  induction members as [|y members IH]; intros Hc; [reflexivity|].
  cbn [sweep_events map]. fold (sweep_events faults frame members).
  assert (Hne : Nat.eqb y c = false)
    by (apply Nat.eqb_neq; intros ->; apply Hc; now left).
  assert (Hrest : received c (sweep_events faults frame members) = [])
    by (apply IH; intros Hin; apply Hc; now right).
  destruct (negb (faulty faults y)); cbn [received flat_map];
    fold (received c (sweep_events faults frame members));
    rewrite ?Hne, Hrest; reflexivity.
Qed.

Lemma received_sweep_once faults frame members c :
  NoDup members -> In c members -> faults c = None ->
  received c (sweep_events faults frame members) = [frame].
Proof.
  intros Hnd Hin Hok. induction Hnd as [|y members Hy Hnd IH]; [contradiction|].
  cbn [sweep_events map]. fold (sweep_events faults frame members).
  destruct Hin as [->|Hin].
  - unfold faulty at 1. rewrite Hok. cbn [negb received flat_map].
    fold (received c (sweep_events faults frame members)).
    rewrite Nat.eqb_refl, received_sweep_absent by assumption. reflexivity.
  - assert (Hne : Nat.eqb y c = false)
      by (apply Nat.eqb_neq; intros ->; contradiction).
    destruct (negb (faulty faults y)); cbn [received flat_map];
      fold (received c (sweep_events faults frame members));
      rewrite ?Hne, IH by assumption; reflexivity.
Qed.

Lemma received_disconnects c ds : received c (map EvDisconnect ds) = [].
Proof. induction ds as [|y ds IH]; [reflexivity | exact IH]. Qed.

Lemma received_broadcast_events faults members msg c :
  NoDup members -> In c members -> faults c = None ->
  received c (broadcast_events faults members msg) = [json_dumps (VDict msg)].
Proof.
  intros Hnd Hin Hok. unfold broadcast_events.
  change (received c (EvBroadcast (VDict msg) :: ?tr)) with (received c tr).
  rewrite received_app, received_disconnects, app_nil_r.
  now apply received_sweep_once.
Qed.

(** ** Collaborator calls *)

Lemma call_action_run a w :
  call_action a w =
  (fst (engine_method a (game_engine w)),
   set_engine (snd (engine_method a (game_engine w))) (record [EvEngine (Act a)] w)).
Proof.
  unfold call_action, bind, emit. cbn [game_engine record].
  now destruct (engine_method a (game_engine w)).
Qed.

Lemma call_get_state_run w :
  call_get_state w =
  (fst (get_state (game_engine w)),
   set_engine (snd (get_state (game_engine w))) (record [EvEngine GetState] w)).
Proof.
  unfold call_get_state, bind, emit. cbn [game_engine record].
  now destruct (get_state (game_engine w)).
Qed.

Lemma call_get_response_run state action result user_message w :
  call_get_response state action result user_message w =
  (fst (get_response state action result user_message (llm_client w)),
   set_llm (snd (get_response state action result user_message (llm_client w)))
           (record [EvRespond action] w)).
Proof.
  unfold call_get_response, bind, emit. cbn [llm_client record].
  now destruct (get_response state action result user_message (llm_client w)).
Qed.

Lemma eq_str_other v literal : v <> VStr literal -> eq_str v literal = false.
Proof.
  destruct v; try reflexivity. cbn. intros H.
  destruct (String.eqb_spec s literal); [congruence | reflexivity].
Qed.

Lemma get_default_absent d key default :
  ~ In key (keys d) -> get_default d key default = default.
Proof.
  induction d as [|[k v] d IH]; cbn; intros H; [reflexivity|].
  destruct (String.eqb_spec k key); [tauto | apply IH; tauto].
Qed.

(** ** Dispatch: the frames that are not messages *)

(** What dispatch comes down to when [json.loads] raises: the first
    [except] clause for a [JSONDecodeError], the second for anything else. *)
Lemma handle_client_message_unparsable ws data w :
  json_loads data = None ->
  handle_client_message ws data w =
  send_personal_message
    (error_message
       (if is_JSONDecodeError (json_loads_error data)
        then "Invalid JSON format" else "Internal server error")
       (clock w))
    ws (tick w).
Proof.
  intros Hparse. unfold handle_client_message, try_except, bind at 1, loads.
  rewrite Hparse. unfold raise.
  destruct (is_JSONDecodeError (json_loads_error data)); reflexivity.
Qed.

(** What dispatch comes down to when the frame parses to something that
    is not a [dict]. *)
Lemma handle_client_message_not_dict ws data v w :
  json_loads data = Some v ->
  (forall d, v <> VDict d) ->
  handle_client_message ws data w =
  send_personal_message (error_message "Internal server error" (clock w)) ws (tick w).
Proof.
  intros Hparse Hv. unfold handle_client_message, try_except, bind at 1, loads.
  rewrite Hparse. unfold ret, bind at 1.
  destruct v; try reflexivity. now destruct (Hv items).
Qed.

(** C6, as the code has it.  A frame on which [json.loads] raises gets one
    reply, an error envelope attempted on the sender's socket and on no
    other; nothing is broadcast, nothing is raised, no collaborator is
    called, and the registry entries of all other sockets stay as they
    were.  The text is the fixed ["Invalid JSON format"] when the parser
    raised a [JSONDecodeError], and the generic ["Internal server error"]
    when it gave up in another way, as it does on brackets nested too
    deep.  The sender stays registered when the reply goes through and is
    dropped from the registry when it does not. *)
Theorem unparsable_frame_reply ws data w :
  json_loads data = None ->
  let text :=
    if is_JSONDecodeError (json_loads_error data)
    then "Invalid JSON format" else "Internal server error" in
  let reply := error_message text (clock w) in
  let sent := personal_events (send_fault w) reply ws in
  exists w',
    handle_client_message ws data w = (Returned tt, w')
    /\ trace w' = (trace w ++ sent)%list
    /\ personals sent = [(ws, VDict reply)]
    /\ attempts sent = [(ws, json_dumps (VDict reply))]
    /\ broadcasts sent = []
    /\ engine_calls sent = []
    /\ (forall c, c <> ws ->
          received c sent = []
          /\ count_occ Nat.eq_dec (active_connections w') c
             = count_occ Nat.eq_dec (active_connections w) c)
    /\ (send_fault w ws = None ->
          active_connections w' = active_connections w
          /\ received ws sent = [json_dumps (VDict reply)])
    /\ (send_fault w ws <> None ->
          active_connections w' = list_remove ws (active_connections w)
          /\ received ws sent = [])
    /\ get reply "type" = VStr "error"
    /\ (json_loads_error data = JSONDecodeError ->
          get reply "message" = VStr "Invalid JSON format")
    /\ (json_loads_error data <> JSONDecodeError ->
          get reply "message" = VStr "Internal server error").
Proof.
  intros Hparse text reply sent.
  destruct (personal_events_read (send_fault w) reply ws) as (Hb & Hp & He & Ha & Hr).
  eexists. split.
  { rewrite handle_client_message_unparsable by assumption.
    apply send_personal_message_run. }
  cbn [trace active_connections send_fault set_connections record tick].
  split; [reflexivity|]. do 4 (split; [assumption|]).
  split.
  { intros c Hc. split; [now apply Hr | now apply personal_registry_others]. }
  split.
  { intros Hok. split.
    - unfold faulty. now rewrite Hok.
    - unfold sent, personal_events, faulty. rewrite Hok. cbn. now rewrite Nat.eqb_refl. }
  split.
  { intros Hbad. split.
    - unfold faulty. destruct (send_fault w ws); [reflexivity | congruence].
    - unfold sent, personal_events, faulty.
      destruct (send_fault w ws); [reflexivity | congruence]. }
  split; [reflexivity|]. split; intros Hraised; unfold reply, text.
  - now rewrite Hraised.
  - destruct (json_loads_error data); try reflexivity. congruence.
Qed.

(** C9.  A frame that is JSON but not an object (an array, a string, a
    number, [null]) is answered on the internal-error path: one error
    envelope with the generic text, not the invalid-JSON one, attempted on
    the sender's socket only, and no broadcast. *)
Theorem non_object_frame_reply ws data v w :
  json_loads data = Some v ->
  (forall d, v <> VDict d) ->
  let reply := error_message "Internal server error" (clock w) in
  let sent := personal_events (send_fault w) reply ws in
  exists w',
    handle_client_message ws data w = (Returned tt, w')
    /\ trace w' = (trace w ++ sent)%list
    /\ personals sent = [(ws, VDict reply)]
    /\ attempts sent = [(ws, json_dumps (VDict reply))]
    /\ broadcasts sent = []
    /\ engine_calls sent = []
    /\ (forall c, c <> ws -> received c sent = [])
    /\ get reply "type" = VStr "error"
    /\ get reply "message" = VStr "Internal server error"
    /\ get reply "message" <> VStr "Invalid JSON format".
Proof.
  intros Hparse Hv reply sent.
  destruct (personal_events_read (send_fault w) reply ws) as (Hb & Hp & He & Ha & Hr).
  eexists. split.
  { rewrite (handle_client_message_not_dict ws data v) by assumption.
    apply send_personal_message_run. }
  cbn [trace active_connections send_fault set_connections record tick].
  repeat split; try assumption; try reflexivity.
  cbn. discriminate.
Qed.

(** ** Dispatch: actions *)

Lemma handle_action_message_unknown d w :
  (forall nm a, In (nm, a) recognized -> get d "action" <> VStr nm) ->
  handle_action_message (VDict d) w =
  broadcast
    (error_message ("Unknown action: " ++ format_value (get d "action")) (clock w))
    (tick w).
Proof.
  intros Hunknown.
  unfold handle_action_message, message_get, message_get_default, bind at 1, ret.
  fold (get d "action").
  rewrite !eq_str_other by (eapply Hunknown; cbn; eauto 6).
  unfold bind, now, ret. rewrite broadcast_run. reflexivity.
Qed.

Lemma handle_client_message_action ws data d w :
  json_loads data = Some (VDict d) ->
  get d "type" = VStr "action" ->
  handle_client_message ws data w = after_try ws (handle_action_message (VDict d) w).
Proof.
  intros Hparse Htype.
  unfold handle_client_message, try_except, loads. rewrite Hparse.
  unfold bind at 1, ret at 1. unfold bind at 1, message_get, message_get_default, ret at 1.
  fold (get d "type"). rewrite Htype. cbn [eq_str String.eqb Ascii.eqb Bool.eqb].
  unfold after_try.
  destruct (handle_action_message (VDict d) w) as [[a|e] w1]; [reflexivity|].
  now destruct e.
Qed.

Lemma handle_client_message_chat ws data d w :
  json_loads data = Some (VDict d) ->
  get d "type" = VStr "chat" ->
  handle_client_message ws data w = after_try ws (handle_chat_message (VDict d) w).
Proof.
  intros Hparse Htype.
  unfold handle_client_message, try_except, loads. rewrite Hparse.
  unfold bind at 1, ret at 1. unfold bind at 1, message_get, message_get_default, ret at 1.
  fold (get d "type"). rewrite Htype. cbn [eq_str String.eqb Ascii.eqb Bool.eqb].
  unfold after_try.
  destruct (handle_chat_message (VDict d) w) as [[a|e] w1]; [reflexivity|].
  now destruct e.
Qed.

Lemma handle_client_message_get_state ws data d w :
  json_loads data = Some (VDict d) ->
  get d "type" = VStr "get_state" ->
  handle_client_message ws data w =
  after_try ws
    (bind call_get_state
          (fun current_state =>
             bind now
                  (fun t =>
                     send_personal_message
                       [ ("type", VStr "state_update");
                         ("timestamp", VStr (isoformat t));
                         ("data", snapshot_or_null current_state) ]
                       ws)) w).
Proof.
  intros Hparse Htype.
  unfold handle_client_message, try_except, loads. rewrite Hparse.
  unfold bind at 1, ret at 1. unfold bind at 1, message_get, message_get_default, ret at 1.
  fold (get d "type"). rewrite Htype. cbn [eq_str String.eqb Ascii.eqb Bool.eqb].
  unfold after_try.
  match goal with |- context [bind call_get_state ?k w] =>
    destruct (bind call_get_state k w) as [[a|e] w1] end; [reflexivity|].
  now destruct e.
Qed.

(** C4.  An action message whose action is none of the five recognized
    names: one error envelope naming the action is broadcast to the whole
    registry, nothing is sent personally, the engine is not called, and
    dispatch emits nothing else. *)
Theorem unknown_action_broadcast ws data d w :
  json_loads data = Some (VDict d) ->
  get d "type" = VStr "action" ->
  (forall nm a, In (nm, a) recognized -> get d "action" <> VStr nm) ->
  let reply :=
    error_message ("Unknown action: " ++ format_value (get d "action")) (clock w) in
  let emitted := broadcast_events (send_fault w) (active_connections w) reply in
  exists w',
    handle_client_message ws data w = (Returned tt, w')
    /\ trace w' = (trace w ++ emitted)%list
    /\ broadcasts emitted = [VDict reply]
    /\ attempts emitted
       = map (fun c => (c, json_dumps (VDict reply))) (active_connections w)
    /\ personals emitted = []
    /\ engine_calls emitted = []
    /\ game_engine w' = game_engine w
    /\ get reply "type" = VStr "error"
    /\ (forall nm, get d "action" = VStr nm ->
                   get reply "message" = VStr ("Unknown action: " ++ nm)).
Proof.
  intros Hparse Htype Hunknown reply emitted.
  destruct (broadcast_events_read (send_fault w) (active_connections w) reply)
    as (Hb & Hp & He & Ha).
  eexists. split.
  { rewrite (handle_client_message_action ws data d) by assumption.
    rewrite handle_action_message_unknown by assumption.
    rewrite broadcast_run. reflexivity. }
  cbn [trace active_connections send_fault game_engine set_connections record tick].
  repeat split; try assumption.
  intros nm Hnm. unfold reply. now rewrite Hnm.
Qed.

(** C10.  An action message without an ["action"] field: the lookup gives
    [None], which is no recognized action, so the error envelope naming
    ["None"] is broadcast to the whole registry; the engine is not called
    and nothing is sent personally to the sender. *)
Theorem missing_action_broadcast ws data d w :
  json_loads data = Some (VDict d) ->
  get d "type" = VStr "action" ->
  ~ In "action" (keys d) ->
  let reply := error_message "Unknown action: None" (clock w) in
  let emitted := broadcast_events (send_fault w) (active_connections w) reply in
  exists w',
    handle_client_message ws data w = (Returned tt, w')
    /\ get d "action" = VNone
    /\ trace w' = (trace w ++ emitted)%list
    /\ broadcasts emitted = [VDict reply]
    /\ attempts emitted
       = map (fun c => (c, json_dumps (VDict reply))) (active_connections w)
    /\ personals emitted = []
    /\ engine_calls emitted = []
    /\ game_engine w' = game_engine w
    /\ get reply "type" = VStr "error"
    /\ get reply "message" = VStr "Unknown action: None".
Proof.
  intros Hparse Htype Hmissing reply emitted.
  assert (Hnone : get d "action" = VNone) by now apply get_default_absent.
  destruct (broadcast_events_read (send_fault w) (active_connections w) reply)
    as (Hb & Hp & He & Ha).
  eexists. split.
  { rewrite (handle_client_message_action ws data d) by assumption.
    rewrite handle_action_message_unknown by (intros nm a _; rewrite Hnone; discriminate).
    rewrite Hnone, broadcast_run. reflexivity. }
  cbn [trace active_connections send_fault game_engine set_connections record tick].
  repeat split; assumption.
Qed.

(** The engine method a recognized name selects is called, and its result
    handed on, by the [if] chain of [handle_action_message]. *)
Lemma handle_action_message_recognized d w nm a :
  get d "action" = VStr nm ->
  In (nm, a) recognized ->
  handle_action_message (VDict d) w =
  bind (call_action a)
       (fun result =>
          bind call_get_state
               (fun current_state =>
                  bind (call_get_response current_state (VStr nm) (Some result) None)
                       (fun llm_response =>
                          bind (broadcast_action_result
                                  (VStr nm)
                                  [ ("success", VBool (success result));
                                    ("message", VStr (message result));
                                    ("stat_changes", VDict (stat_changes result)) ]
                                  llm_response)
                               (fun _ => broadcast_state_update current_state)))) w.
Proof.
  intros Haction Hin.
  unfold handle_action_message, message_get, message_get_default.
  unfold bind at 1, ret at 1. fold (get d "action"). rewrite Haction.
  cbn [recognized In] in Hin.
  repeat (destruct Hin as [Hin|Hin]; [injection Hin as <- <-|]); [..|contradiction];
    cbn [eq_str String.eqb Ascii.eqb Bool.eqb];
    unfold bind, ret; destruct (call_action _ w) as [[r|e] w1]; reflexivity.
Qed.

(** C2, as the code has it.  An action message with a recognized name,
    the engine and the
    response generator returning: dispatch broadcasts exactly twice, first
    the action result built from what the engine method returned, then the
    state read after it; nothing is sent personally.  A viewer with a
    working link, in a registry without duplicates, receives the two frames
    in that order. *)
Theorem action_result_then_state ws data d w nm a result e1 st e2 text llm1 :
  json_loads data = Some (VDict d) ->
  get d "type" = VStr "action" ->
  get d "action" = VStr nm ->
  In (nm, a) recognized ->
  engine_method a (game_engine w) = (Returned result, e1) ->
  get_state e1 = (Returned st, e2) ->
  get_response st (VStr nm) (Some result) None (llm_client w) = (Returned text, llm1) ->
  let result_msg :=
    [ ("type", VStr "action_result");
      ("action", VStr nm);
      ("timestamp", VStr (isoformat (clock w)));
      ("success", VBool (success result));
      ("message", VStr (message result));
      ("stat_changes", VDict (stat_changes result));
      ("response", VStr text) ] in
  let state_msg :=
    [ ("type", VStr "state_update");
      ("timestamp", VStr (isoformat (S (clock w))));
      ("data", snapshot_or_null st) ] in
  let emitted :=
    ([EvEngine (Act a); EvEngine GetState; EvRespond (VStr nm)]
       ++ broadcast_events (send_fault w) (active_connections w) result_msg
       ++ broadcast_events (send_fault w)
            (survivors (send_fault w) (active_connections w)) state_msg)%list in
  exists w',
    handle_client_message ws data w = (Returned tt, w')
    /\ trace w' = (trace w ++ emitted)%list
    /\ broadcasts emitted = [VDict result_msg; VDict state_msg]
    /\ type_of (VDict result_msg) = VStr "action_result"
    /\ type_of (VDict state_msg) = VStr "state_update"
    /\ personals emitted = []
    /\ engine_calls emitted = [Act a; GetState]
    /\ game_engine w' = e2
    /\ (forall c,
          NoDup (active_connections w) -> In c (active_connections w) ->
          send_fault w c = None ->
          received c emitted
          = [json_dumps (VDict result_msg); json_dumps (VDict state_msg)]).
Proof.
  intros Hparse Htype Haction Hin Hact Hstate Hresp result_msg state_msg emitted.
  destruct (broadcast_events_read (send_fault w) (active_connections w) result_msg)
    as (Hb1 & Hp1 & He1 & _).
  destruct (broadcast_events_read
              (send_fault w) (survivors (send_fault w) (active_connections w)) state_msg)
    as (Hb2 & Hp2 & He2 & _).
  eexists. split.
  { rewrite (handle_client_message_action ws data d) by assumption.
    rewrite (handle_action_message_recognized d w nm a) by assumption.
    unfold bind at 1. rewrite call_action_run, Hact. cbn [fst snd].
    unfold bind at 1. rewrite call_get_state_run.
    cbn [game_engine set_engine record]. rewrite Hstate. cbn [fst snd].
    unfold bind at 1. rewrite call_get_response_run.
    cbn [llm_client set_engine record]. rewrite Hresp. cbn [fst snd].
    unfold broadcast_action_result, broadcast_state_update, bind, now.
    rewrite broadcast_run. cbn [get_default String.eqb Ascii.eqb Bool.eqb].
    rewrite broadcast_run. reflexivity. }
  cbn [trace active_connections send_fault game_engine clock
             set_connections set_engine set_llm record tick].
  unfold emitted.
  rewrite !broadcasts_app, !personals_app, !engine_calls_app.
  rewrite Hb1, Hb2, Hp1, Hp2, He1, He2.
  split; [now rewrite <- !app_assoc|].
  repeat (split; [reflexivity|]).
  intros c Hnd Hc Hok. rewrite !received_app.
  rewrite (received_broadcast_events _ _ result_msg c Hnd Hc Hok).
  rewrite (received_broadcast_events _ _ state_msg c
             (survivors_NoDup _ _ Hnd) (survivors_In _ _ c Hc Hok) Hok).
  reflexivity.
Qed.

(** ** Dispatch: a collaborator raises *)

Lemma internal_error_reply ws w w1 e calls :
  e <> JSONDecodeError ->
  only_calls calls ->
  active_connections w1 = active_connections w ->
  send_fault w1 = send_fault w ->
  clock w1 = clock w ->
  trace w1 = (trace w ++ calls)%list ->
  let reply := error_message "Internal server error" (clock w) in
  let sent := personal_events (send_fault w) reply ws in
  exists w',
    after_try ws (Raised e, w1) = (Returned tt, w')
    /\ trace w' = (trace w ++ calls ++ sent)%list
    /\ broadcasts (calls ++ sent) = []
    /\ personals (calls ++ sent) = [(ws, VDict reply)]
    /\ attempts (calls ++ sent) = [(ws, json_dumps (VDict reply))]
    /\ (forall c, c <> ws ->
          received c (calls ++ sent) = []
          /\ count_occ Nat.eq_dec (active_connections w') c
             = count_occ Nat.eq_dec (active_connections w) c)
    /\ (send_fault w ws = None -> active_connections w' = active_connections w).
Proof.
  intros Hne (Hcb & Hcp & Hca & Hcr) Hreg Hfault Hclock Htrace reply sent.
  destruct (personal_events_read (send_fault w) reply ws) as (Hb & Hp & He & Ha & Hr).
  eexists. split.
  { unfold after_try. destruct e; try congruence; cbn [is_JSONDecodeError];
      apply send_personal_message_run. }
  cbn [trace active_connections send_fault clock set_connections record tick].
  rewrite Hreg, Hfault, Hclock, Htrace.
  fold reply. fold sent. fold sent in Hb, Hp, Ha, Hr.
  rewrite broadcasts_app, personals_app, attempts_app.
  rewrite Hcb, Hcp, Hca, Hb, Hp, Ha, <- app_assoc.
  repeat split.
  - rewrite received_app, Hcr. now apply Hr.
  - now apply personal_registry_others.
  - intros Hok. unfold faulty. now rewrite Hok.
Qed.

Ltac call_step :=
  unfold bind at 1;
  first [ rewrite call_action_run | rewrite call_get_state_run
        | rewrite call_get_response_run ];
  cbn [game_engine llm_client set_engine set_llm record].

Ltac caught_with calls :=
  eexists; exists calls; split; [reflexivity|];
  cbn [trace active_connections send_fault clock set_engine set_llm record];
  rewrite <- ?app_assoc; repeat split.

(** Whichever collaborator call raises, the [try] body has by then only
    made collaborator calls, and raises the same exception. *)
Lemma collaborator_raises_caught ws data d w e :
  json_loads data = Some (VDict d) ->
  collaborator_raises d w e ->
  exists w1 calls,
    handle_client_message ws data w = after_try ws (Raised e, w1)
    /\ only_calls calls
    /\ active_connections w1 = active_connections w
    /\ send_fault w1 = send_fault w
    /\ clock w1 = clock w
    /\ trace w1 = (trace w ++ calls)%list.
Proof.
  intros Hparse Hraises.
  destruct Hraises
    as [ Htype Hst
       | nm a Htype Haction Hin Hact
       | nm a result e1 Htype Haction Hin Hact Hst
       | nm a result e1 st e2 Htype Haction Hin Hact Hst Hresp
       | Htype Hst
       | st e1 Htype Hst Hresp ].
  - rewrite (handle_client_message_get_state ws data d) by assumption.
    call_step. rewrite Hst.
    caught_with [EvEngine GetState].
  - rewrite (handle_client_message_action ws data d) by assumption.
    rewrite (handle_action_message_recognized d w nm a) by assumption.
    call_step. rewrite Hact.
    caught_with [EvEngine (Act a)].
  - rewrite (handle_client_message_action ws data d) by assumption.
    rewrite (handle_action_message_recognized d w nm a) by assumption.
    call_step. rewrite Hact. cbn [fst snd].
    call_step. rewrite Hst.
    caught_with [EvEngine (Act a); EvEngine GetState].
  - rewrite (handle_client_message_action ws data d) by assumption.
    rewrite (handle_action_message_recognized d w nm a) by assumption.
    call_step. rewrite Hact. cbn [fst snd].
    call_step. rewrite Hst. cbn [fst snd].
    call_step. rewrite Hresp.
    caught_with [EvEngine (Act a); EvEngine GetState; EvRespond (VStr nm)].
  - rewrite (handle_client_message_chat ws data d) by assumption.
    unfold handle_chat_message, message_get_default. unfold bind at 1, ret at 1.
    call_step. rewrite Hst.
    caught_with [EvEngine GetState].
  - rewrite (handle_client_message_chat ws data d) by assumption.
    unfold handle_chat_message, message_get_default. unfold bind at 1, ret at 1.
    call_step. rewrite Hst. cbn [fst snd].
    call_step. rewrite Hresp.
    caught_with [EvEngine GetState; EvRespond (VStr "talk")].
Qed.

(** C5, as the code has it.  When a call to the engine or to the response
    generator raises anything but a JSON decoding error, dispatch returns
    normally after one send: the error envelope with the generic text,
    attempted on the sender's socket only.  Nothing is broadcast, the
    session loop goes on with the next frame, the other sockets keep
    their registry entries, and so does the sender when the send goes
    through. *)
Theorem collaborator_failure_reply ws data d w e rest :
  json_loads data = Some (VDict d) ->
  collaborator_raises d w e ->
  e <> JSONDecodeError ->
  let reply := error_message "Internal server error" (clock w) in
  let sent := personal_events (send_fault w) reply ws in
  exists w' calls,
    handle_client_message ws data w = (Returned tt, w')
    /\ only_calls calls
    /\ trace w' = (trace w ++ calls ++ sent)%list
    /\ broadcasts (calls ++ sent) = []
    /\ personals (calls ++ sent) = [(ws, VDict reply)]
    /\ attempts (calls ++ sent) = [(ws, json_dumps (VDict reply))]
    /\ (forall c, c <> ws ->
          received c (calls ++ sent) = []
          /\ count_occ Nat.eq_dec (active_connections w') c
             = count_occ Nat.eq_dec (active_connections w) c)
    /\ (send_fault w ws = None -> active_connections w' = active_connections w)
    /\ session_loop ws (data :: rest) w = session_loop ws rest w'.
Proof.
  intros Hparse Hraises Hne reply sent.
  destruct (collaborator_raises_caught ws data d w e Hparse Hraises)
    as (w1 & calls & Hrun & Hcalls & Hreg & Hfault & Hclock & Htrace).
  destruct (internal_error_reply ws w w1 e calls Hne Hcalls Hreg Hfault Hclock Htrace)
    as (w' & Hafter & Hrest).
  exists w', calls.
  assert (Hdone : handle_client_message ws data w = (Returned tt, w'))
    by (now rewrite Hrun).
  split; [exact Hdone|]. split; [exact Hcalls|].
  repeat (split; [apply Hrest|]).
  cbn [session_loop]. unfold bind. now rewrite Hdone.
Qed.

(** ** The welcome *)

Lemma send_welcome_message_run ws state w :
  send_welcome_message ws state w =
  send_personal_message
    [ ("type", VStr "welcome");
      ("timestamp", VStr (isoformat (clock w)));
      ("message", VStr "Connected to Tamagotchi!");
      ("data", snapshot_or_null state) ]
    ws (tick w).
Proof. reflexivity. Qed.

(** C7, as the code has it.  Once the handshake is done and the engine has
    returned the current state, [handle_websocket] makes one personal
    send, to the socket that has just joined and to no other: the welcome
    envelope.  Its fields are ["type"], ["timestamp"], ["message"] and
    ["data"], in this order; ["message"] is a fixed greeting and ["data"]
    is the state's dictionary, or [None] when there is no pet.  The
    session loop starts after that. *)
Theorem welcome_envelope ws incoming w st e1 :
  accept_fault w ws = None ->
  get_state (game_engine w) = (Returned st, e1) ->
  let welcome :=
    [ ("type", VStr "welcome");
      ("timestamp", VStr (isoformat (clock w)));
      ("message", VStr "Connected to Tamagotchi!");
      ("data", snapshot_or_null st) ] in
  let sent := personal_events (send_fault w) welcome ws in
  exists w2,
    handle_websocket ws incoming w
    = try_except (session_loop ws incoming) (fun _ => Some (disconnect ws)) w2
    /\ trace w2 = (trace w ++ [EvAccept ws; EvEngine GetState] ++ sent)%list
    /\ personals sent = [(ws, VDict welcome)]
    /\ attempts sent = [(ws, json_dumps (VDict welcome))]
    /\ broadcasts sent = []
    /\ (forall c, c <> ws -> received c sent = [])
    /\ keys welcome = ["type"; "timestamp"; "message"; "data"]
    /\ get welcome "type" = VStr "welcome"
    /\ get welcome "message" = VStr "Connected to Tamagotchi!"
    /\ get welcome "data"
       = match st with Some s => VDict (to_dict s) | None => VNone end.
Proof.
  intros Haccept Hstate welcome sent.
  destruct (personal_events_read (send_fault w) welcome ws) as (Hb & Hp & He & Ha & Hr).
  eexists. split.
  { unfold handle_websocket. unfold bind at 1. rewrite connect_run, Haccept.
    call_step. cbn [set_connections record handshake_done game_engine].
    rewrite Hstate. cbn [fst snd].
    unfold bind at 1. rewrite send_welcome_message_run, send_personal_message_run.
    reflexivity. }
  cbn [trace active_connections send_fault clock
             set_connections set_engine record handshake_done tick].
  rewrite <- !app_assoc.
  repeat split; assumption.
Qed.

End Properties.

(** * The properties at work on concrete worlds *)

Import Fixture.

(** A three-member registry whose second member has a dead link. *)
Lemma broadcast_one_failure_witness :
  let w := world [1; 2; 3] (dead_link 2) in
  let msg := [("type", VStr "pong")] in
  active_connections w = ([1] ++ 2 :: [3])%list
  /\ NoDup (active_connections w)
  /\ send_fault w 2 = Some WebSocketDisconnect
  /\ (forall c, In c ([1] ++ [3]) -> send_fault w c = None)
  /\ exists w',
       @broadcast toy_py nat unit msg w = (Returned tt, w')
       /\ trace w' = [ EvBroadcast (VDict msg);
                       EvSend 1 "pong" true; EvSend 2 "pong" false; EvSend 3 "pong" true;
                       EvDisconnect 2 ]
       /\ active_connections w' = [1; 3]
       /\ get_connection_count w = 3
       /\ get_connection_count w' = 2.
Proof.
  intros w msg.
  assert (H1 : active_connections w = ([1] ++ 2 :: [3])%list) by reflexivity.
  assert (H2 : NoDup (active_connections w))
    by (repeat constructor; simpl; intuition discriminate).
  assert (H3 : send_fault w 2 = Some WebSocketDisconnect) by reflexivity.
  assert (H4 : forall c, In c ([1] ++ [3]) -> send_fault w c = None)
    by (intros c [<-|[<-|[]]]; reflexivity).
  repeat (split; [assumption|]).
  destruct (@broadcast_one_failure toy_py nat unit msg w [1] [3] 2 WebSocketDisconnect
              H1 H2 H3 H4)
    as (w' & Hrun & Htrace & _ & _ & Hreg & _ & _).
  exists w'.
  split; [exact Hrun|].
  split; [rewrite Htrace; reflexivity|].
  split; [exact Hreg|].
  split; [reflexivity|].
  unfold get_connection_count. rewrite Hreg. reflexivity.
Defined.

(** Feeding the pet of the toy engine, two viewers connected. *)
Lemma action_result_then_state_witness :
  let w := world [1; 2] no_fault in
  let data := frame2 "action" "action" "feed" in
  let d := [("type", VStr "action"); ("action", VStr "feed")] in
  @json_loads toy_py data = Some (VDict d)
  /\ get d "type" = VStr "action"
  /\ get d "action" = VStr "feed"
  /\ In ("feed", Feed) recognized
  /\ @engine_method nat toy_engine Feed (game_engine w) = (Returned (done "fed"), 1)
  /\ @get_state nat toy_engine 1 = (Returned (Some (pet_state 1)), 1)
  /\ @get_response unit toy_llm (Some (pet_state 1)) (VStr "feed") (Some (done "fed")) None
                   (llm_client w)
     = (Returned "purr", tt)
  /\ exists w',
       @handle_client_message toy_py nat unit toy_engine toy_llm 1 data w = (Returned tt, w')
       /\ map type_of (broadcasts (trace w')) = [VStr "action_result"; VStr "state_update"]
       /\ personals (trace w') = []
       /\ engine_calls (trace w') = [Act Feed; GetState]
       /\ received 2 (trace w') = ["action_result: fed"; "state_update"].
Proof.
  intros w data d.
  assert (H1 : @json_loads toy_py data = Some (VDict d)) by reflexivity.
  assert (H2 : get d "type" = VStr "action") by reflexivity.
  assert (H3 : get d "action" = VStr "feed") by reflexivity.
  assert (H4 : In ("feed", Feed) recognized) by (simpl; auto).
  assert (H5 : @engine_method nat toy_engine Feed (game_engine w) = (Returned (done "fed"), 1))
    by reflexivity.
  assert (H6 : @get_state nat toy_engine 1 = (Returned (Some (pet_state 1)), 1))
    by reflexivity.
  assert (H7 : @get_response unit toy_llm (Some (pet_state 1)) (VStr "feed")
                             (Some (done "fed")) None (llm_client w)
               = (Returned "purr", tt)) by reflexivity.
  repeat (split; [assumption|]).
  destruct (@action_result_then_state toy_py nat unit toy_engine toy_llm 1 data d w
              "feed" Feed (done "fed") 1 (Some (pet_state 1)) 1 "purr" tt
              H1 H2 H3 H4 H5 H6 H7)
    as (w' & Hrun & Htrace & _).
  exists w'. split; [exact Hrun|].
  rewrite Htrace. repeat split; reflexivity.
Defined.

(** Two sockets come; the first is connected again while it is registered,
    leaves, and is connected once more.  Its handshake was done the first
    time, so neither of the later connects registers it. *)
Lemma registry_without_duplicates_witness :
  let w : World nat unit := world [] no_fault in
  let cs := [Connect 1; Connect 2; Connect 1; Disconnect 1; Connect 1; Connect 3] in
  NoDup (active_connections w)
  /\ registered_are_connected w
  /\ NoDup (active_connections (registry_calls cs w))
  /\ active_connections (registry_calls [Connect 1; Connect 2; Connect 1] w) = [1; 2]
  /\ active_connections (registry_calls cs w) = [2; 3]
  /\ get_connection_count (registry_calls cs w) = 2.
Proof.
  intros w cs.
  assert (H1 : NoDup (active_connections w)) by constructor.
  assert (H2 : registered_are_connected w) by (intros ws []).
  repeat (split; [assumption|]).
  destruct (@registry_without_duplicates nat unit cs w H1 H2) as (Hnd & _).
  split; [exact Hnd|]. repeat split; reflexivity.
Defined.

(** Calls on four sockets, the handshake of socket 4 being refused: what
    is counted is what the calls that returned have registered. *)
Lemma count_of_registrations_witness :
  let w : World nat unit := Bench.world_refusing 4 [] in
  let cs := [Connect 1; Connect 2; Connect 4; Connect 1;
             Disconnect 1; Disconnect 1; Connect 3] in
  active_connections w = []
  /\ completed cs w = [Connect 1; Connect 2; Disconnect 1; Disconnect 1; Connect 3]
  /\ still_registered (completed cs w) = [2; 3]
  /\ get_connection_count (registry_calls cs w)
     = List.length (still_registered (completed cs w))
  /\ get_connection_count (registry_calls cs w) = 2.
Proof.
  intros w cs.
  assert (H1 : active_connections w = []) by reflexivity.
  split; [assumption|].
  destruct (@count_of_registrations nat unit cs w H1) as (Hcount & _).
  split; [reflexivity|]. split; [reflexivity|].
  split; [exact Hcount | reflexivity].
Defined.

(** [{"type": "action", "action": "fly"}] *)
Lemma unknown_action_broadcast_witness :
  let w := world [1; 2] no_fault in
  let data := frame2 "action" "action" "fly" in
  let d := [("type", VStr "action"); ("action", VStr "fly")] in
  @json_loads toy_py data = Some (VDict d)
  /\ get d "type" = VStr "action"
  /\ (forall nm a, In (nm, a) recognized -> get d "action" <> VStr nm)
  /\ exists w',
       @handle_client_message toy_py nat unit toy_engine toy_llm 1 data w = (Returned tt, w')
       /\ broadcasts (trace w')
          = [VDict [ ("type", VStr "error");
                     ("message", VStr "Unknown action: fly");
                     ("timestamp", VStr "T0") ]]
       /\ attempts (trace w')
          = [(1, "error: Unknown action: fly"); (2, "error: Unknown action: fly")]
       /\ personals (trace w') = []
       /\ engine_calls (trace w') = [].
Proof.
  intros w data d.
  assert (H1 : @json_loads toy_py data = Some (VDict d)) by reflexivity.
  assert (H2 : get d "type" = VStr "action") by reflexivity.
  assert (H3 : forall nm a, In (nm, a) recognized -> get d "action" <> VStr nm).
  { intros nm a Hin. cbn in Hin.
    repeat (destruct Hin as [Hin|Hin]; [injection Hin as <- <-; discriminate|]).
    contradiction. }
  repeat (split; [assumption|]).
  destruct (@unknown_action_broadcast toy_py nat unit toy_engine toy_llm 1 data d w H1 H2 H3)
    as (w' & Hrun & Htrace & _).
  exists w'. split; [exact Hrun|].
  rewrite Htrace. repeat split; reflexivity.
Defined.

(** [{"type": "action"}] *)
Lemma missing_action_broadcast_witness :
  let w := world [1; 2] no_fault in
  let data := frame1 "action" in
  let d := [("type", VStr "action")] in
  @json_loads toy_py data = Some (VDict d)
  /\ get d "type" = VStr "action"
  /\ ~ In "action" (keys d)
  /\ exists w',
       @handle_client_message toy_py nat unit toy_engine toy_llm 1 data w = (Returned tt, w')
       /\ broadcasts (trace w')
          = [VDict [ ("type", VStr "error");
                     ("message", VStr "Unknown action: None");
                     ("timestamp", VStr "T0") ]]
       /\ personals (trace w') = []
       /\ engine_calls (trace w') = [].
Proof.
  intros w data d.
  assert (H1 : @json_loads toy_py data = Some (VDict d)) by reflexivity.
  assert (H2 : get d "type" = VStr "action") by reflexivity.
  assert (H3 : ~ In "action" (keys d)) by (cbn; intros [H|[]]; discriminate).
  repeat (split; [assumption|]).
  destruct (@missing_action_broadcast toy_py nat unit toy_engine toy_llm 1 data d w H1 H2 H3)
    as (w' & Hrun & _ & Htrace & _).
  exists w'. split; [exact Hrun|].
  rewrite Htrace. repeat split; reflexivity.
Defined.

(** A JSON array where a message is expected. *)
Lemma non_object_frame_reply_witness :
  let w := world [1; 2] no_fault in
  let v := VList [VInt 1; VInt 2] in
  @json_loads toy_py "[1, 2]" = Some v
  /\ (forall d, v <> VDict d)
  /\ exists w',
       @handle_client_message toy_py nat unit toy_engine toy_llm 1 "[1, 2]" w
       = (Returned tt, w')
       /\ personals (trace w')
          = [(1, VDict [ ("type", VStr "error");
                         ("message", VStr "Internal server error");
                         ("timestamp", VStr "T0") ])]
       /\ attempts (trace w') = [(1, "error: Internal server error")]
       /\ broadcasts (trace w') = [].
Proof.
  intros w v.
  assert (H1 : @json_loads toy_py "[1, 2]" = Some v) by reflexivity.
  assert (H2 : forall d, v <> VDict d) by discriminate.
  repeat (split; [assumption|]).
  destruct (@non_object_frame_reply toy_py nat unit toy_engine toy_llm 1 "[1, 2]" v w H1 H2)
    as (w' & Hrun & Htrace & _).
  exists w'. split; [exact Hrun|].
  rewrite Htrace. repeat split; reflexivity.
Defined.

(** Two frames that are not JSON, from a sender whose link is up: one the
    parser rejects, one it cannot get to the bottom of. *)
Lemma unparsable_frame_reply_witness :
  let w := world [1; 2] no_fault in
  (@json_loads toy_py "garbage" = None
   /\ @json_loads_error toy_py "garbage" = JSONDecodeError
   /\ exists w',
        @handle_client_message toy_py nat unit toy_engine toy_llm 1 "garbage" w
        = (Returned tt, w')
        /\ personals (trace w')
           = [(1, VDict [ ("type", VStr "error");
                          ("message", VStr "Invalid JSON format");
                          ("timestamp", VStr "T0") ])]
        /\ received 1 (trace w') = ["error: Invalid JSON format"]
        /\ received 2 (trace w') = []
        /\ broadcasts (trace w') = []
        /\ active_connections w' = [1; 2])
  /\ (@json_loads toy_py deeply_nested = None
      /\ @json_loads_error toy_py deeply_nested = OtherError "RecursionError"
      /\ exists w',
           @handle_client_message toy_py nat unit toy_engine toy_llm 1 deeply_nested w
           = (Returned tt, w')
           /\ personals (trace w')
              = [(1, VDict [ ("type", VStr "error");
                             ("message", VStr "Internal server error");
                             ("timestamp", VStr "T0") ])]
           /\ received 1 (trace w') = ["error: Internal server error"]
           /\ received 2 (trace w') = []
           /\ broadcasts (trace w') = []
           /\ active_connections w' = [1; 2]).
Proof.
  intros w.
  assert (H1 : @json_loads toy_py "garbage" = None) by reflexivity.
  assert (H2 : @json_loads toy_py deeply_nested = None) by (vm_compute; reflexivity).
  assert (H3 : @json_loads_error toy_py deeply_nested = OtherError "RecursionError")
    by (vm_compute; reflexivity).
  split.
  - split; [assumption|]. split; [reflexivity|].
    destruct (@unparsable_frame_reply toy_py nat unit toy_engine toy_llm 1 "garbage" w H1)
      as (w' & Hrun & Htrace & _ & _ & _ & _ & _ & Hup & _).
    destruct (Hup eq_refl) as (Hreg & _).
    exists w'. split; [exact Hrun|].
    rewrite Htrace, Hreg. repeat split; reflexivity.
  - split; [assumption|]. split; [assumption|].
    destruct (@unparsable_frame_reply toy_py nat unit toy_engine toy_llm 1 deeply_nested w H2)
      as (w' & Hrun & Htrace & _ & _ & _ & _ & _ & Hup & _).
    destruct (Hup eq_refl) as (Hreg & _).
    exists w'. split; [exact Hrun|].
    rewrite Htrace, Hreg, H3. repeat split; reflexivity.
Defined.

(** A chat message while the engine is down. *)
Lemma collaborator_failure_reply_witness :
  let w := world [1; 2] no_fault in
  let data := frame2 "chat" "message" "hello" in
  let d := [("type", VStr "chat"); ("message", VStr "hello")] in
  let e := OtherError "RuntimeError" in
  @json_loads toy_py data = Some (VDict d)
  /\ @collaborator_raises nat unit (broken_engine e) toy_llm d w e
  /\ e <> JSONDecodeError
  /\ exists w',
       @handle_client_message toy_py nat unit (broken_engine e) toy_llm 1 data w
       = (Returned tt, w')
       /\ personals (trace w')
          = [(1, VDict [ ("type", VStr "error");
                         ("message", VStr "Internal server error");
                         ("timestamp", VStr "T0") ])]
       /\ broadcasts (trace w') = []
       /\ active_connections w' = [1; 2]
       /\ @session_loop toy_py nat unit (broken_engine e) toy_llm 1 [data; frame1 "ping"] w
          = @session_loop toy_py nat unit (broken_engine e) toy_llm 1 [frame1 "ping"] w'.
Proof.
  intros w data d e.
  assert (H1 : @json_loads toy_py data = Some (VDict d)) by reflexivity.
  assert (H2 : @collaborator_raises nat unit (broken_engine e) toy_llm d w e)
    by (apply chat_state_raises; reflexivity).
  assert (H3 : e <> JSONDecodeError) by discriminate.
  repeat (split; [assumption|]).
  destruct (@collaborator_failure_reply toy_py nat unit (broken_engine e) toy_llm
              1 data d w e [frame1 "ping"] H1 H2 H3)
    as (w' & calls & Hrun & _ & _ & _ & _ & _ & _ & Hup & Hloop).
  exists w'. split; [exact Hrun|].
  split; [|split; [|split; [exact (Hup eq_refl) | exact Hloop]]].
  - pose proof Hrun as Hrun'. vm_compute in Hrun'.
    injection Hrun' as <-. reflexivity.
  - pose proof Hrun as Hrun'. vm_compute in Hrun'.
    injection Hrun' as <-. reflexivity.
Defined.

(** Socket 7 joins while sockets 1 and 2 are connected. *)
Lemma welcome_envelope_witness :
  let w := world [1; 2] no_fault in
  accept_fault w 7 = None
  /\ @get_state nat toy_engine (game_engine w) = (Returned (Some (pet_state 0)), 0)
  /\ exists w2,
       @handle_websocket toy_py nat unit toy_engine toy_llm 7 [] w
       = @try_except nat unit unit
           (@session_loop toy_py nat unit toy_engine toy_llm 7 [])
           (fun _ => Some (disconnect 7)) w2
       /\ map fst (personals (trace w2)) = [7]
       /\ map (fun p => type_of (snd p)) (personals (trace w2)) = [VStr "welcome"]
       /\ received 7 (trace w2) = ["welcome: Connected to Tamagotchi!"]
       /\ received 1 (trace w2) = []
       /\ received 2 (trace w2) = [].
Proof.
  intros w.
  assert (H1 : accept_fault w 7 = None) by reflexivity.
  assert (H2 : @get_state nat toy_engine (game_engine w) = (Returned (Some (pet_state 0)), 0))
    by reflexivity.
  repeat (split; [assumption|]).
  destruct (@welcome_envelope toy_py nat unit toy_engine toy_llm 7 [] w
              (Some (pet_state 0)) 0 H1 H2)
    as (w2 & Hrun & Htrace & _).
  exists w2. split; [exact Hrun|].
  rewrite Htrace. repeat split; reflexivity.
Defined.

(** * Where the stated properties fail *)

(** C2 as stated fails: when the response generator raises, the engine has
    already fed the pet and read its state, and neither broadcast is made;
    the sender alone is told of an internal error. *)
Lemma action_without_response_broadcasts_nothing :
  let w := world [1; 2] no_fault in
  let data := frame2 "action" "action" "feed" in
  let d := [("type", VStr "action"); ("action", VStr "feed")] in
  let e := OtherError "TimeoutError" in
  @json_loads toy_py data = Some (VDict d)
  /\ get d "type" = VStr "action"
  /\ get d "action" = VStr "feed"
  /\ In ("feed", Feed) recognized
  /\ exists w',
       @handle_client_message toy_py nat unit toy_engine (broken_llm e) 1 data w
       = (Returned tt, w')
       /\ engine_calls (trace w') = [Act Feed; GetState]
       /\ game_engine w = 0
       /\ game_engine w' = 1
       /\ broadcasts (trace w') = []
       /\ List.length (broadcasts (trace w')) <> 2
       /\ received 2 (trace w') = []
       /\ personals (trace w')
          = [(1, VDict [ ("type", VStr "error");
                         ("message", VStr "Internal server error");
                         ("timestamp", VStr "T0") ])].
Proof.
  intros w data d e. split; [reflexivity|]. split; [reflexivity|].
  split; [reflexivity|]. split; [simpl; auto|].
  eexists. split; [reflexivity|].
  repeat split; try reflexivity. discriminate.
Qed.

(** C6 as stated fails: when the sender of a frame that is not JSON has a
    dead link, the reply cannot be sent and [send_personal_message] drops
    the sender from the registry. *)
Lemma unparsable_frame_from_dead_link :
  let w := world [1; 2] (dead_link 1) in
  @json_loads toy_py "garbage" = None
  /\ exists w',
       @handle_client_message toy_py nat unit toy_engine toy_llm 1 "garbage" w
       = (Returned tt, w')
       /\ active_connections w = [1; 2]
       /\ active_connections w' = [2]
       /\ active_connections w' <> active_connections w
       /\ received 1 (trace w') = [].
Proof.
  intros w. split; [reflexivity|].
  eexists. split; [reflexivity|].
  repeat split; try reflexivity. discriminate.
Qed.

(** C7 as stated fails: the welcome envelope has a fourth field,
    ["message"]. *)
Lemma welcome_has_message_field :
  let w := world [7] no_fault in
  exists w' welcome,
    @send_welcome_message toy_py nat unit 7 None w = (Returned tt, w')
    /\ personals (trace w') = [(7, VDict welcome)]
    /\ keys welcome = ["type"; "timestamp"; "message"; "data"]
    /\ keys welcome <> ["type"; "timestamp"; "data"]
    /\ get welcome "message" = VStr "Connected to Tamagotchi!".
Proof.
  intros w. eexists. eexists. split; [reflexivity|].
  split; [reflexivity|].
  repeat split; try reflexivity. discriminate.
Qed.

(** C5 as stated fails twice.  A response generator that raises a JSON
    decoding error is answered with the invalid-JSON text, though the frame
    was valid JSON; and when the engine raises while the sender's link is
    dead, the error envelope cannot be sent and the sender is dropped from
    the registry. *)
Lemma collaborator_failure_other_outcomes :
  let data := frame2 "chat" "message" "hello" in
  let d := [("type", VStr "chat"); ("message", VStr "hello")] in
  @json_loads toy_py data = Some (VDict d)
  /\ (let w := world [1; 2] no_fault in
      @collaborator_raises nat unit toy_engine (broken_llm JSONDecodeError) d w JSONDecodeError
      /\ exists w',
           @handle_client_message toy_py nat unit toy_engine (broken_llm JSONDecodeError)
                                  1 data w
           = (Returned tt, w')
           /\ personals (trace w')
              = [(1, VDict [ ("type", VStr "error");
                             ("message", VStr "Invalid JSON format");
                             ("timestamp", VStr "T0") ])])
  /\ (let w := world [1; 2] (dead_link 1) in
      let e := OtherError "RuntimeError" in
      @collaborator_raises nat unit (broken_engine e) toy_llm d w e
      /\ exists w',
           @handle_client_message toy_py nat unit (broken_engine e) toy_llm 1 data w
           = (Returned tt, w')
           /\ active_connections w = [1; 2]
           /\ active_connections w' = [2]).
Proof.
  intros data d. split; [reflexivity|]. split.
  - intros w. split.
    + eapply chat_response_raises; reflexivity.
    + eexists. split; reflexivity.
  - intros w e. split.
    + apply chat_state_raises; reflexivity.
    + eexists. repeat split; reflexivity.
Qed.

(** * Further properties: the pet's state *)

Section PetProperties.

Implicit Types (s : TamagotchiState).

Lemma faces_distinct :
  NoDup [ face_skull; face_dizzy; face_sleeping; face_crying;
          face_smiling; face_slight_smile; face_neutral; face_pensive ].
Proof.
  cbv. repeat constructor; simpl; intuition discriminate.
Qed.

Ltac mood_cases s :=
  unfold get_mood_emoji, should_die; rewrite ?Z.geb_leb;
  destruct (is_alive s); cbn [negb andb orb];
  repeat match goal with
         | |- context [Z.leb ?a ?b] => destruct (Z.leb_spec a b); cbn [negb andb orb]
         end.

(** X13.  [get_mood_emoji] returns one of its eight faces, and the skull exactly
    for a dead pet, whatever the stats are. *)
Theorem mood_is_a_face s :
  In (get_mood_emoji s)
     [ face_skull; face_dizzy; face_sleeping; face_crying;
       face_smiling; face_slight_smile; face_neutral; face_pensive ]
  /\ (get_mood_emoji s = face_skull <-> is_alive s = false).
Proof.
  split.
  - mood_cases s; simpl; tauto.
  - mood_cases s; split; intros Hm; try reflexivity; try discriminate;
      exfalso; revert Hm; cbv; discriminate.
Qed.

(** X14.  The smiling face is shown exactly by a living pet with hunger below 90,
    happiness at least 80 and energy at least 70. *)
Theorem smiling_iff s :
  get_mood_emoji s = face_smiling
  <-> is_alive s = true
      /\ (hunger s < 90 /\ 80 <= happiness s /\ 70 <= energy s)%Z.
Proof.
  mood_cases s; split;
    match goal with
    | |- face_smiling = face_smiling -> _ => intros _; split; [reflexivity | lia]
    | |- _ = face_smiling -> _ => intros Hm; exfalso; revert Hm; cbv; discriminate
    | |- _ -> face_smiling = face_smiling => reflexivity
    | |- _ /\ _ -> _ => intros [Ha Hz]; first [discriminate Ha | lia]
    end.
Qed.

(** X15.  A living pet that [should_die] shows one of the three critical faces:
    dizzy when its hunger is at least 90, else asleep when its energy is at
    most 10, else crying. *)
Theorem dying_pet_looks_critical s :
  is_alive s = true ->
  should_die s = true ->
  get_mood_emoji s
  = (if (90 <=? hunger s)%Z then face_dizzy
     else if (energy s <=? 10)%Z then face_sleeping
     else face_crying)
  /\ In (get_mood_emoji s) [face_dizzy; face_sleeping; face_crying].
Proof.
  intros Halive Hdie.
  assert (Hcases : (100 <= hunger s \/ happiness s <= 0 \/ energy s <= 0)%Z).
  { unfold should_die in Hdie. rewrite Z.geb_leb in Hdie.
    apply orb_true_iff in Hdie. destruct Hdie as [Hdie|Hdie].
    - apply orb_true_iff in Hdie. destruct Hdie as [Hdie|Hdie];
        apply Z.leb_le in Hdie; lia.
    - apply Z.leb_le in Hdie. lia. }
  unfold get_mood_emoji. rewrite ?Z.geb_leb, Halive. cbn [negb].
  destruct (Z.leb_spec 90 (hunger s)); [simpl; tauto|].
  destruct (Z.leb_spec (energy s) 10); [simpl; tauto|].
  destruct (Z.leb_spec (happiness s) 10); [simpl; tauto|].
  lia.
Qed.

(** X16.  [revive] gives, from any state at all, a living pet with stats 60, 50
    and 70: within the declared bounds, not due to die, and showing the
    neutral face, which is also the face [get_mood_emoji] computes for it.
    The name, the age, the counters and the timestamps are kept. *)
Theorem revive_gives_a_stable_pet s :
  let r := revive_state s in
  is_alive r = true
  /\ (hunger r = 60 /\ happiness r = 50 /\ energy r = 70)%Z
  /\ stats_in_bounds r
  /\ should_die r = false
  /\ current_mood r = face_neutral
  /\ current_mood r = get_mood_emoji r
  /\ name r = name s /\ age r = age s
  /\ deaths r = deaths s /\ total_interactions r = total_interactions s
  /\ last_fed r = last_fed s /\ last_played r = last_played s
  /\ last_slept r = last_slept s /\ last_pet r = last_pet s
  /\ created_at r = created_at s.
Proof.
  cbv beta zeta. unfold stats_in_bounds.
  repeat split; try reflexivity; cbn; lia.
Qed.

Lemma pet_calls_snoc cs c s :
  pet_calls (cs ++ [c]) s = pet_call c (pet_calls cs s).
Proof. unfold pet_calls. now rewrite fold_left_app. Qed.

Lemma pet_call_mood_agrees c s :
  current_mood (pet_call c s) = get_mood_emoji (pet_call c s).
Proof. destruct c; reflexivity. Qed.

Lemma pet_call_bounds c s : stats_in_bounds s -> stats_in_bounds (pet_call c s).
Proof.
  unfold stats_in_bounds. destruct c; cbn; intros H; try exact H. lia.
Qed.

(** X17.  Over any run of [kill], [revive] and [update_mood]: the death counter
    goes up by the number of [kill] calls, those on an already dead pet
    included; the name, the age and the interaction counter stay; stats
    that were within their bounds stay within them; and after the last
    call the stored mood is the one [get_mood_emoji] computes. *)
Theorem pet_calls_keep_the_books cs s :
  deaths (pet_calls cs s) = (deaths s + Z.of_nat (List.length (filter is_kill cs)))%Z
  /\ name (pet_calls cs s) = name s
  /\ age (pet_calls cs s) = age s
  /\ total_interactions (pet_calls cs s) = total_interactions s
  /\ (stats_in_bounds s -> stats_in_bounds (pet_calls cs s))
  /\ (cs <> [] -> current_mood (pet_calls cs s) = get_mood_emoji (pet_calls cs s)).
Proof.
  split; [|split; [|split; [|split; [|split]]]].
  - revert s. induction cs as [|c cs IH]; intros s; [cbn; lia|].
    change (pet_calls (c :: cs) s) with (pet_calls cs (pet_call c s)).
    rewrite IH. destruct c; cbn [filter is_kill List.length pet_call kill deaths
                                  revive_state update_mood set_current_mood]; lia.
  - revert s. induction cs as [|c cs IH]; intros s; [reflexivity|].
    change (pet_calls (c :: cs) s) with (pet_calls cs (pet_call c s)).
    rewrite IH. now destruct c.
  - revert s. induction cs as [|c cs IH]; intros s; [reflexivity|].
    change (pet_calls (c :: cs) s) with (pet_calls cs (pet_call c s)).
    rewrite IH. now destruct c.
  - revert s. induction cs as [|c cs IH]; intros s; [reflexivity|].
    change (pet_calls (c :: cs) s) with (pet_calls cs (pet_call c s)).
    rewrite IH. now destruct c.
  - revert s. induction cs as [|c cs IH]; intros s Hs; [exact Hs|].
    change (pet_calls (c :: cs) s) with (pet_calls cs (pet_call c s)).
    now apply IH, pet_call_bounds.
  - intros Hcs. destruct (exists_last Hcs) as (cs' & c & ->).
    rewrite pet_calls_snoc. apply pet_call_mood_agrees.
Qed.

End PetProperties.

(** * Further properties: the registry, dispatch and the session *)

Section ServerProperties.
Context {py : PyRuntime} {E L : Type} {GE : GameEngine E} {LC : LLMClient L}.

Local Notation Async := (@Async E L) (only parsing).

Implicit Types (w : World E L) (ws c : WebSocket) (members : list WebSocket).

(** X18.  [to_dict] loses nothing: where [isoformat] tells two times apart, two
    states with the same dictionary are the same state.  The dictionary has
    fourteen keys, all different. *)
Theorem to_dict_loses_nothing (s1 s2 : TamagotchiState) :
  (forall t1 t2 : datetime, isoformat t1 = isoformat t2 -> t1 = t2) ->
  to_dict s1 = to_dict s2 ->
  s1 = s2
  /\ NoDup (keys (to_dict s1))
  /\ List.length (keys (to_dict s1)) = 14.
Proof.
  intros Hiso Heq. split; [|split; [|reflexivity]].
  - destruct s1, s2. unfold to_dict in Heq. cbn in Heq.
    injection Heq as -> -> -> -> -> -> -> H1 H2 H3 H4 H5 -> ->.
    apply Hiso in H1, H2, H3, H4, H5. now subst.
  - cbn. repeat constructor; simpl; intuition discriminate.
Qed.

(** ** What a broadcast does to the registry *)

Lemma remove_each_cons_other ds y members :
  ~ In y ds -> remove_each ds (y :: members) = y :: remove_each ds members.
Proof.
  revert members. induction ds as [|c ds IH]; intros members Hy; [reflexivity|].
  cbn [remove_each fold_left list_remove].
  destruct (Nat.eqb_spec c y) as [->|Hne].
  - exfalso. apply Hy. now left.
  - apply IH. intros Hin. apply Hy. now right.
Qed.

Lemma survivors_healthy faults members :
  survivors faults members = healthy_members faults members.
Proof.
  unfold survivors, healthy_members, dropped.
  induction members as [|y members IH]; [reflexivity|].
  cbn [filter]. destruct (faulty faults y) eqn:Hy; cbn [negb].
  - cbn [remove_each fold_left list_remove]. rewrite Nat.eqb_refl. exact IH.
  - rewrite remove_each_cons_other; [now rewrite IH|].
    rewrite filter_In. intros [_ Hf]. congruence.
Qed.

Lemma healthy_members_In faults members c :
  In c (healthy_members faults members) <-> In c members /\ faults c = None.
Proof.
  unfold healthy_members. rewrite filter_In. unfold faulty.
  destruct (faults c); cbn; intuition congruence.
Qed.

Lemma healthy_members_dropped faults members :
  dropped faults (healthy_members faults members) = [].
Proof.
  unfold dropped, healthy_members.
  induction members as [|y members IH]; [reflexivity|].
  cbn [filter]. destruct (faulty faults y) eqn:Hy; cbn [negb filter]; [exact IH|].
  now rewrite Hy.
Qed.

Lemma healthy_members_sweep faults frame members :
  sweep_events faults frame (healthy_members faults members)
  = map (fun c => EvSend c frame true) (healthy_members faults members).
Proof.
  unfold sweep_events. apply map_ext_in. intros c Hc.
  apply healthy_members_In in Hc. destruct Hc as [_ Hc].
  unfold faulty. now rewrite Hc.
Qed.

Lemma healthy_members_idem faults members :
  healthy_members faults (healthy_members faults members)
  = healthy_members faults members.
Proof.
  unfold healthy_members.
  induction members as [|y members IH]; [reflexivity|].
  cbn [filter]. destruct (negb (faulty faults y)) eqn:Hy; [|exact IH].
  cbn [filter]. now rewrite Hy, IH.
Qed.

Lemma count_occ_filter_le (f : WebSocket -> bool) members c :
  count_occ Nat.eq_dec (filter f members) c <= count_occ Nat.eq_dec members c.
Proof.
  induction members as [|y members IH]; [reflexivity|].
  cbn [filter]. destruct (f y); cbn [count_occ]; destruct (Nat.eq_dec y c); lia.
Qed.

(** X1.  [broadcast] never raises.  It attempts one send per registry entry, in
    registry order, and leaves in the registry exactly the entries whose
    send went through, in their order: a socket is registered afterwards if
    and only if it was registered and its link is up.  This holds for
    registries with repeated entries too. *)
Theorem broadcast_prunes_dead_links msg w :
  exists w',
    broadcast msg w = (Returned tt, w')
    /\ trace w'
       = (trace w ++ broadcast_events (send_fault w) (active_connections w) msg)%list
    /\ attempts (broadcast_events (send_fault w) (active_connections w) msg)
       = map (fun c => (c, json_dumps (VDict msg))) (active_connections w)
    /\ active_connections w' = healthy_members (send_fault w) (active_connections w)
    /\ (forall c, In c (active_connections w')
                  <-> In c (active_connections w) /\ send_fault w c = None)
    /\ get_connection_count w' <= get_connection_count w
    /\ send_fault w' = send_fault w.
Proof.
  eexists. split; [apply broadcast_run|].
  cbn [trace active_connections send_fault set_connections record].
  rewrite survivors_healthy.
  split; [reflexivity|]. split; [apply broadcast_events_read|].
  split; [reflexivity|]. split; [intros c; apply healthy_members_In|].
  split; [|reflexivity].
  unfold get_connection_count, set_connections, healthy_members.
  cbn [active_connections]. apply filter_length_le.
Qed.

(** X2.  A second broadcast, made right after a first one under the same
    transport, reaches every socket the first one left registered and
    removes none. *)
Theorem second_broadcast_removes_nothing msg1 msg2 w :
  let w1 := snd (broadcast msg1 w) in
  exists w2,
    broadcast msg2 w1 = (Returned tt, w2)
    /\ active_connections w2 = active_connections w1
    /\ trace w2
       = (trace w1
            ++ EvBroadcast (VDict msg2)
            :: map (fun c => EvSend c (json_dumps (VDict msg2)) true)
                   (active_connections w1))%list.
Proof.
  intros w1.
  assert (Hreg : active_connections w1
                 = healthy_members (send_fault w) (active_connections w))
    by (unfold w1; rewrite broadcast_run, survivors_healthy; reflexivity).
  assert (Hfault : send_fault w1 = send_fault w)
    by (unfold w1; rewrite broadcast_run; reflexivity).
  eexists. split; [apply broadcast_run|].
  cbn [trace active_connections set_connections record].
  rewrite survivors_healthy, Hfault, Hreg. unfold broadcast_events.
  rewrite healthy_members_dropped, healthy_members_sweep, healthy_members_idem.
  cbn [map]. rewrite app_nil_r. split; reflexivity.
Qed.

Lemma count_occ_list_remove_same members c :
  count_occ Nat.eq_dec (list_remove c members) c
  = pred (count_occ Nat.eq_dec members c).
Proof.
  induction members as [|y members IH]; [reflexivity|].
  cbn [list_remove]. destruct (Nat.eqb_spec c y) as [->|Hne].
  - now rewrite count_occ_cons_eq.
  - rewrite !count_occ_cons_neq by congruence. exact IH.
Qed.

(** X3.  A socket whose link is down and which is in the registry more than
    once: a personal send to it removes one of its entries and no other
    socket's, where a broadcast removes them all.  Neither raises. *)
Theorem dead_link_removal ws msg w e :
  send_fault w ws = Some e ->
  let after_personal := snd (send_personal_message msg ws w) in
  let after_broadcast := snd (broadcast msg w) in
  fst (send_personal_message msg ws w) = Returned tt
  /\ fst (broadcast msg w) = Returned tt
  /\ count_occ Nat.eq_dec (active_connections after_personal) ws
     = pred (count_occ Nat.eq_dec (active_connections w) ws)
  /\ (forall c, c <> ws ->
        count_occ Nat.eq_dec (active_connections after_personal) c
        = count_occ Nat.eq_dec (active_connections w) c)
  /\ count_occ Nat.eq_dec (active_connections after_broadcast) ws = 0.
Proof.
  intros Hdead after_personal after_broadcast.
  unfold after_personal, after_broadcast.
  rewrite send_personal_message_run, broadcast_run. cbn [fst snd].
  cbn [active_connections set_connections record].
  assert (Hf : faulty (send_fault w) ws = true) by (unfold faulty; now rewrite Hdead).
  rewrite Hf. repeat split.
  - apply count_occ_list_remove_same.
  - intros c Hc. now apply count_occ_list_remove_other.
  - rewrite survivors_healthy. apply count_occ_not_In.
    rewrite healthy_members_In. intros [_ Hok]. congruence.
Qed.

(** ** Dispatch never raises and never registers *)

(** X4.  Whatever the frame, the world and the collaborators, dispatch returns:
    an exception of the [try] body is answered by a personal send, which
    does not raise either. *)
Theorem dispatch_never_raises ws data w :
  fst (handle_client_message ws data w) = Returned tt.
Proof.
  unfold handle_client_message, try_except.
  match goal with
  | |- context [match ?body w with _ => _ end] =>
      destruct (body w) as [[[]|e] w1]
  end; [reflexivity|].
  destruct (is_JSONDecodeError e); unfold bind, now;
    now rewrite send_personal_message_run.
Qed.

Ltac plain_step evs :=
  cbn; split; [intros c; lia|];
  split; [reflexivity|]; split; [reflexivity|];
  exists evs; rewrite ?app_nil_r; reflexivity.

Lemma only_removes_ret (A : Type) (a : A) : only_removes (@ret E L A a).
Proof. intros w. plain_step (@nil Event). Qed.

Lemma only_removes_raise (A : Type) e : only_removes (@raise E L A e).
Proof. intros w. plain_step (@nil Event). Qed.

Lemma only_removes_bind (A B : Type) (m : Async A) (k : A -> Async B) :
  only_removes m -> (forall a, only_removes (k a)) -> only_removes (bind m k).
Proof.
  intros Hm Hk w. unfold bind. specialize (Hm w).
  destruct (m w) as [[a|e] w1]; cbn [snd] in *; [|exact Hm].
  destruct Hm as (Hc & Hs & Ha & evs & Ht).
  destruct (Hk a w1) as (Hc' & Hs' & Ha' & evs' & Ht').
  split; [|split; [congruence|split; [congruence|]]].
  - intros c. specialize (Hc c). specialize (Hc' c). lia.
  - exists (evs ++ evs')%list. now rewrite Ht', Ht, app_assoc.
Qed.

Lemma only_removes_try (A : Type) (body : Async A) handler :
  only_removes body ->
  (forall e h, handler e = Some h -> only_removes h) ->
  only_removes (try_except body handler).
Proof.
  intros Hb Hh w. unfold try_except. specialize (Hb w).
  destruct (body w) as [[a|e] w1]; cbn [snd] in *; [exact Hb|].
  destruct (handler e) as [h|] eqn:He; [|exact Hb].
  destruct Hb as (Hc & Hs & Ha & evs & Ht).
  destruct (Hh e h He w1) as (Hc' & Hs' & Ha' & evs' & Ht').
  split; [|split; [congruence|split; [congruence|]]].
  - intros c. specialize (Hc c). specialize (Hc' c). lia.
  - exists (evs ++ evs')%list. now rewrite Ht', Ht, app_assoc.
Qed.

Lemma only_removes_now : only_removes (@now E L).
Proof. intros w. plain_step (@nil Event). Qed.

Lemma only_removes_call_get_state : only_removes (@call_get_state E L GE).
Proof. intros w. rewrite call_get_state_run. plain_step [EvEngine GetState]. Qed.

Lemma only_removes_call_action a : only_removes (@call_action E L GE a).
Proof. intros w. rewrite call_action_run. plain_step [EvEngine (Act a)]. Qed.

Lemma only_removes_call_get_response state action result user_message :
  only_removes (@call_get_response E L LC state action result user_message).
Proof. intros w. rewrite call_get_response_run. plain_step [EvRespond action]. Qed.

Lemma only_removes_disconnect ws : only_removes (@disconnect E L ws).
Proof.
  intros w. rewrite disconnect_run. cbn.
  split; [|split; [reflexivity|split; [reflexivity|eexists; reflexivity]]].
  intros c. destruct (Nat.eq_dec c ws) as [->|Hne].
  - rewrite count_occ_list_remove_same. lia.
  - rewrite count_occ_list_remove_other by assumption. lia.
Qed.

Lemma only_removes_send_personal_message msg ws :
  only_removes (@send_personal_message py E L msg ws).
Proof.
  intros w. rewrite send_personal_message_run. cbn [snd active_connections send_fault
    accept_fault trace set_connections record].
  split; [|split; [reflexivity|split; [reflexivity|eexists; reflexivity]]].
  intros c. destruct (faulty (send_fault w) ws); [|lia].
  destruct (Nat.eq_dec c ws) as [->|Hne].
  - rewrite count_occ_list_remove_same. lia.
  - rewrite count_occ_list_remove_other by assumption. lia.
Qed.

Lemma only_removes_broadcast msg : only_removes (@broadcast py E L msg).
Proof.
  intros w. rewrite broadcast_run. cbn [snd active_connections send_fault
    accept_fault trace set_connections record].
  split; [|split; [reflexivity|split; [reflexivity|eexists; reflexivity]]].
  intros c. rewrite survivors_healthy. apply count_occ_filter_le.
Qed.

Ltac removes :=
  repeat first
    [ apply only_removes_ret | apply only_removes_raise | apply only_removes_now
    | apply only_removes_call_get_state | apply only_removes_call_action
    | apply only_removes_call_get_response | apply only_removes_disconnect
    | apply only_removes_send_personal_message | apply only_removes_broadcast
    | apply only_removes_bind; [|intros ?]
    | match goal with
      | |- only_removes (if ?b then _ else _) => destruct b
      | |- only_removes (match ?x with Some _ => _ | None => _ end) => destruct x
      end ].

Lemma only_removes_message_get_default msg key default :
  only_removes (@message_get_default E L msg key default).
Proof. destruct msg; cbn [message_get_default]; removes. Qed.

Lemma only_removes_handle_action_message msg :
  only_removes (@handle_action_message py E L GE LC msg).
Proof.
  unfold handle_action_message, message_get, broadcast_action_result,
    broadcast_state_update.
  apply only_removes_bind; [apply only_removes_message_get_default|intros action].
  removes.
Qed.

Lemma only_removes_handle_chat_message msg :
  only_removes (@handle_chat_message py E L GE LC msg).
Proof.
  unfold handle_chat_message, broadcast_chat_message.
  apply only_removes_bind; [apply only_removes_message_get_default|intros user_message].
  removes.
Qed.

Lemma only_removes_handle_client_message ws data :
  only_removes (@handle_client_message py E L GE LC ws data).
Proof.
  unfold handle_client_message. apply only_removes_try.
  - apply only_removes_bind.
    + unfold loads. destruct (json_loads data); removes.
    + intros msg. unfold message_get.
      apply only_removes_bind; [apply only_removes_message_get_default|].
      intros message_type.
      repeat match goal with
             | |- only_removes (if ?b then _ else _) => destruct b
             end;
        first [ apply only_removes_handle_action_message
              | apply only_removes_handle_chat_message
              | removes ].
  - intros e h Hh. destruct (is_JSONDecodeError e); injection Hh as <-; removes.
Qed.

(** X5.  Dispatch never adds to the registry and never touches the transport:
    whatever the frame, every socket is registered afterwards at most as
    often as before, so the count of connections cannot grow. *)
Theorem dispatch_never_registers ws data w :
  let w' := snd (handle_client_message ws data w) in
  (forall c, count_occ Nat.eq_dec (active_connections w') c
             <= count_occ Nat.eq_dec (active_connections w) c)
  /\ (forall c, In c (active_connections w') -> In c (active_connections w))
  /\ send_fault w' = send_fault w
  /\ accept_fault w' = accept_fault w.
Proof.
  destruct (only_removes_handle_client_message ws data w) as (Hc & Hs & Ha & _).
  cbv zeta. split; [exact Hc|]. split; [|split; assumption].
  intros c Hin. apply (count_occ_In Nat.eq_dec) in Hin.
  apply (count_occ_In Nat.eq_dec). specialize (Hc c). lia.
Qed.

(** ** Dispatch: heartbeat, state query, unknown type, chat *)

Ltac run_call :=
  unfold bind at 1;
  first [ rewrite call_action_run | rewrite call_get_state_run
        | rewrite call_get_response_run ];
  cbn [game_engine llm_client set_engine set_llm set_connections record].

Lemma handle_client_message_other ws data d w :
  json_loads data = Some (VDict d) ->
  (forall nm, In nm ["ping"; "get_state"; "action"; "chat"] -> get d "type" <> VStr nm) ->
  handle_client_message ws data w =
  send_personal_message
    (error_message ("Unknown message type: " ++ format_value (get d "type")) (clock w))
    ws (tick w).
Proof.
  intros Hparse Hother.
  unfold handle_client_message, try_except, loads. rewrite Hparse.
  unfold bind at 1, ret at 1. unfold bind at 1, message_get, message_get_default, ret at 1.
  fold (get d "type").
  rewrite !eq_str_other by (apply Hother; cbn; tauto).
  unfold bind, now. now rewrite send_personal_message_run.
Qed.

Lemma handle_client_message_ping ws data d w :
  json_loads data = Some (VDict d) ->
  get d "type" = VStr "ping" ->
  handle_client_message ws data w =
  send_personal_message
    [ ("type", VStr "pong"); ("timestamp", VStr (isoformat (clock w))) ] ws (tick w).
Proof.
  intros Hparse Htype.
  unfold handle_client_message, try_except, loads. rewrite Hparse.
  unfold bind at 1, ret at 1. unfold bind at 1, message_get, message_get_default, ret at 1.
  fold (get d "type"). rewrite Htype. cbn [eq_str String.eqb Ascii.eqb Bool.eqb].
  unfold bind, now. now rewrite send_personal_message_run.
Qed.

(** X6.  A ping is answered by one pong, sent to the sender and to no one else:
    a dictionary of exactly ["type"] and ["timestamp"].  Nothing is
    broadcast, no collaborator is called, and the engine and the response
    generator are left as they were. *)
Theorem ping_gets_one_pong ws data d w :
  json_loads data = Some (VDict d) ->
  get d "type" = VStr "ping" ->
  let pong := [ ("type", VStr "pong"); ("timestamp", VStr (isoformat (clock w))) ] in
  let sent := personal_events (send_fault w) pong ws in
  exists w',
    handle_client_message ws data w = (Returned tt, w')
    /\ trace w' = (trace w ++ sent)%list
    /\ personals sent = [(ws, VDict pong)]
    /\ attempts sent = [(ws, json_dumps (VDict pong))]
    /\ broadcasts sent = []
    /\ engine_calls sent = []
    /\ (forall c, c <> ws -> received c sent = [])
    /\ game_engine w' = game_engine w
    /\ llm_client w' = llm_client w.
Proof.
  intros Hparse Htype pong sent.
  destruct (personal_events_read (send_fault w) pong ws) as (Hb & Hp & He & Ha & Hr).
  eexists. split.
  { rewrite (handle_client_message_ping ws data d) by assumption.
    apply send_personal_message_run. }
  cbn [trace send_fault game_engine llm_client set_connections record tick].
  repeat split; assumption.
Qed.

(** X7.  A state query reads the state once and answers the sender alone with a
    [state_update] carrying that state, or [None] when there is no pet.
    Unlike the state update that follows an action, it is not broadcast. *)
Theorem state_query_is_answered_personally ws data d w st e1 :
  json_loads data = Some (VDict d) ->
  get d "type" = VStr "get_state" ->
  get_state (game_engine w) = (Returned st, e1) ->
  let reply :=
    [ ("type", VStr "state_update");
      ("timestamp", VStr (isoformat (clock w)));
      ("data", snapshot_or_null st) ] in
  let sent := (EvEngine GetState :: personal_events (send_fault w) reply ws)%list in
  exists w',
    handle_client_message ws data w = (Returned tt, w')
    /\ trace w' = (trace w ++ sent)%list
    /\ personals sent = [(ws, VDict reply)]
    /\ attempts sent = [(ws, json_dumps (VDict reply))]
    /\ broadcasts sent = []
    /\ engine_calls sent = [GetState]
    /\ (forall c, c <> ws -> received c sent = [])
    /\ game_engine w' = e1.
Proof.
  intros Hparse Htype Hstate reply sent.
  destruct (personal_events_read (send_fault w) reply ws) as (Hb & Hp & He & Ha & Hr).
  eexists. split.
  { rewrite (handle_client_message_get_state ws data d) by assumption.
    run_call. rewrite Hstate. cbn [fst snd]. unfold bind, now.
    rewrite send_personal_message_run. reflexivity. }
  cbn [trace send_fault game_engine clock set_connections set_engine record tick].
  unfold sent.
  cbn [personals attempts broadcasts engine_calls received flat_map app].
  fold (personals (personal_events (send_fault w) reply ws)).
  fold (attempts (personal_events (send_fault w) reply ws)).
  fold (broadcasts (personal_events (send_fault w) reply ws)).
  fold (engine_calls (personal_events (send_fault w) reply ws)).
  rewrite Hb, Hp, He, Ha, <- app_assoc.
  repeat split. intros c Hc. now apply Hr.
Qed.

(** X8.  A message whose ["type"] is none of the four known ones, be it another
    string, a value that is no string, or absent: the sender alone gets an
    error envelope naming what was found, ["None"] for an absent type;
    nothing is broadcast and no collaborator is called. *)
Theorem unknown_type_is_answered_personally ws data d w :
  json_loads data = Some (VDict d) ->
  (forall nm, In nm ["ping"; "get_state"; "action"; "chat"] -> get d "type" <> VStr nm) ->
  let reply :=
    error_message ("Unknown message type: " ++ format_value (get d "type")) (clock w) in
  let sent := personal_events (send_fault w) reply ws in
  exists w',
    handle_client_message ws data w = (Returned tt, w')
    /\ trace w' = (trace w ++ sent)%list
    /\ personals sent = [(ws, VDict reply)]
    /\ attempts sent = [(ws, json_dumps (VDict reply))]
    /\ broadcasts sent = []
    /\ engine_calls sent = []
    /\ (forall c, c <> ws -> received c sent = [])
    /\ (forall nm, get d "type" = VStr nm ->
                   get reply "message" = VStr ("Unknown message type: " ++ nm))
    /\ (~ In "type" (keys d) ->
        get reply "message" = VStr "Unknown message type: None").
Proof.
  intros Hparse Hother reply sent.
  destruct (personal_events_read (send_fault w) reply ws) as (Hb & Hp & He & Ha & Hr).
  eexists. split.
  { rewrite (handle_client_message_other ws data d) by assumption.
    apply send_personal_message_run. }
  cbn [trace send_fault set_connections record tick].
  repeat split; try assumption.
  - intros nm Hnm. unfold reply. now rewrite Hnm.
  - intros Habsent. unfold reply, get at 2.
    now rewrite (get_default_absent d "type" VNone Habsent).
Qed.

(** X9.  A chat message, the collaborators returning: the state is read once,
    the response generator is asked with the action ["talk"] and the
    message's text, the empty string when the message has none, and one
    [chat_message] is broadcast to the whole registry with the response and
    the pet's stored mood, or the fallback mood when there is no pet.
    Nothing is sent to the sender in person. *)
Theorem chat_is_broadcast ws data d w st e1 text llm1 :
  json_loads data = Some (VDict d) ->
  get d "type" = VStr "chat" ->
  get_state (game_engine w) = (Returned st, e1) ->
  get_response st (VStr "talk") None (Some (get_default d "message" (VStr "")))
               (llm_client w)
  = (Returned text, llm1) ->
  let chat :=
    [ ("type", VStr "chat_message");
      ("timestamp", VStr (isoformat (clock w)));
      ("response", VStr text);
      ("mood", VStr (match st with Some s => current_mood s | None => fallback_mood end)) ] in
  let emitted :=
    ([EvEngine GetState; EvRespond (VStr "talk")]
       ++ broadcast_events (send_fault w) (active_connections w) chat)%list in
  exists w',
    handle_client_message ws data w = (Returned tt, w')
    /\ trace w' = (trace w ++ emitted)%list
    /\ broadcasts emitted = [VDict chat]
    /\ attempts emitted
       = map (fun c => (c, json_dumps (VDict chat))) (active_connections w)
    /\ personals emitted = []
    /\ engine_calls emitted = [GetState]
    /\ (~ In "message" (keys d) -> get_default d "message" (VStr "") = VStr "").
Proof.
  intros Hparse Htype Hstate Hresp chat emitted.
  destruct (broadcast_events_read (send_fault w) (active_connections w) chat)
    as (Hb & Hp & He & Ha).
  eexists. split.
  { rewrite (handle_client_message_chat ws data d) by assumption.
    unfold handle_chat_message, message_get_default. unfold bind at 1, ret at 1.
    run_call. rewrite Hstate. cbn [fst snd].
    run_call. rewrite Hresp. cbn [fst snd].
    unfold broadcast_chat_message, bind, now. rewrite broadcast_run. reflexivity. }
  cbn [trace active_connections send_fault clock
             set_connections set_engine set_llm record tick].
  unfold emitted.
  rewrite broadcasts_app, personals_app, engine_calls_app, attempts_app.
  fold chat. rewrite Hb, Hp, He, Ha, <- !app_assoc.
  repeat split. intros Habsent. now apply get_default_absent.
Qed.

(** ** The session *)

(** The loop dispatches frame after frame and leaves only when
    [receive_text] raises; on the way it adds nothing to the registry. *)
Lemma session_loop_ends ws incoming w :
  exists w',
    session_loop ws incoming w = (Raised WebSocketDisconnect, w')
    /\ (forall c, count_occ Nat.eq_dec (active_connections w') c
                  <= count_occ Nat.eq_dec (active_connections w) c)
    /\ (exists evs, trace w' = (trace w ++ evs)%list).
Proof.
  revert w. induction incoming as [|data incoming IH]; intros w.
  - exists w. split; [reflexivity|]. split; [intros c; lia|].
    exists []. now rewrite app_nil_r.
  - cbn [session_loop]. unfold bind.
    pose proof (dispatch_never_raises ws data w) as Hret.
    destruct (only_removes_handle_client_message ws data w)
      as (Hc & _ & _ & evs & Ht).
    destruct (handle_client_message ws data w) as [r w1]. cbn [fst snd] in *.
    subst r. destruct (IH w1) as (w' & Hrun & Hc' & evs' & Ht').
    exists w'. split; [exact Hrun|]. split.
    + intros c. specialize (Hc c). specialize (Hc' c). lia.
    + exists (evs ++ evs')%list. now rewrite Ht', Ht, app_assoc.
Qed.

Lemma count_occ_snoc members ws c :
  count_occ Nat.eq_dec (members ++ [ws]) c
  = count_occ Nat.eq_dec members c + (if Nat.eq_dec ws c then 1 else 0).
Proof. rewrite count_occ_app. cbn [count_occ]. reflexivity. Qed.

(** X10.  Once the handshake is done and the state read, [handle_websocket]
    returns normally whatever frames arrive and whatever they cause: the
    session's stretch of the trace opens with the accept and closes with
    the socket's disconnect.  Afterwards every socket is registered at most
    as often as before the session, so the session's own socket, if it was
    not registered before, is not registered after. *)
Theorem session_ends_with_disconnect ws incoming w st e1 :
  accept_fault w ws = None ->
  get_state (game_engine w) = (Returned st, e1) ->
  exists w' middle,
    handle_websocket ws incoming w = (Returned tt, w')
    /\ trace w'
       = (trace w ++ [EvAccept ws; EvEngine GetState] ++ middle ++ [EvDisconnect ws])%list
    /\ (forall c, count_occ Nat.eq_dec (active_connections w') c
                  <= count_occ Nat.eq_dec (active_connections w) c)
    /\ (~ In ws (active_connections w) -> ~ In ws (active_connections w')).
Proof.
  intros Haccept Hstate.
  assert (Hshape : exists w2 welcome,
             handle_websocket ws incoming w
             = try_except (session_loop ws incoming) (fun _ => Some (disconnect ws)) w2
             /\ trace w2 = (trace w ++ [EvAccept ws; EvEngine GetState] ++ welcome)%list
             /\ (forall c, count_occ Nat.eq_dec (active_connections w2) c
                           <= count_occ Nat.eq_dec (active_connections w ++ [ws]) c)).
  { eexists. eexists. split.
    { unfold handle_websocket. unfold bind at 1. rewrite connect_run, Haccept.
      run_call. cbn [handshake_done game_engine]. rewrite Hstate. cbn [fst snd].
      unfold bind at 1. rewrite send_welcome_message_run, send_personal_message_run.
      reflexivity. }
    cbn [trace active_connections send_fault clock
               set_connections set_engine record handshake_done tick].
    split; [now rewrite <- !app_assoc|].
    intros c. destruct (faulty (send_fault w) ws); [|lia].
    destruct (Nat.eq_dec c ws) as [->|Hne].
    - rewrite count_occ_list_remove_same. lia.
    - rewrite count_occ_list_remove_other by assumption. lia. }
  destruct Hshape as (w2 & welcome & Hrun & Htrace & Hcount).
  destruct (session_loop_ends ws incoming w2) as (w3 & Hloop & Hc3 & evs & Ht3).
  assert (Hfinal : forall c,
             count_occ Nat.eq_dec (list_remove ws (active_connections w3)) c
             <= count_occ Nat.eq_dec (active_connections w) c).
  { intros c. specialize (Hcount c). specialize (Hc3 c).
    rewrite count_occ_snoc in Hcount.
    destruct (Nat.eq_dec c ws) as [->|Hne].
    - rewrite count_occ_list_remove_same.
      destruct (Nat.eq_dec ws ws); [lia | congruence].
    - rewrite count_occ_list_remove_other by assumption.
      destruct (Nat.eq_dec ws c); [congruence | lia]. }
  eexists. exists (welcome ++ evs)%list. split.
  { rewrite Hrun. unfold try_except. rewrite Hloop. apply disconnect_run. }
  cbn [trace active_connections set_connections record].
  split; [rewrite Ht3, Htrace, <- !app_assoc; reflexivity|].
  split; [exact Hfinal|].
  intros Hout Hin. apply (count_occ_In Nat.eq_dec) in Hin.
  apply Hout, (count_occ_In Nat.eq_dec). specialize (Hfinal ws). lia.
Qed.

(** X11.  When the handshake fails, [handle_websocket] raises what [accept]
    raised and has done nothing else: the socket is not registered, the
    engine is not asked, nothing is sent. *)
Theorem failed_handshake_leaves_no_trace ws incoming w e :
  accept_fault w ws = Some e ->
  handle_websocket ws incoming w = (Raised e, w).
Proof.
  intros Hfail. unfold handle_websocket, bind at 1. now rewrite connect_run, Hfail.
Qed.

(** X12.  When the state read made on joining raises, [handle_websocket] raises
    the same exception from outside its [try]: no welcome is sent, and the
    socket, registered a moment before, stays in the registry with no
    disconnect. *)
Theorem failed_state_read_leaves_socket_registered ws incoming w e :
  accept_fault w ws = None ->
  fst (get_state (game_engine w)) = Raised e ->
  exists w',
    handle_websocket ws incoming w = (Raised e, w')
    /\ trace w' = (trace w ++ [EvAccept ws; EvEngine GetState])%list
    /\ active_connections w' = (active_connections w ++ [ws])%list
    /\ In ws (active_connections w').
Proof.
  intros Haccept Hstate.
  eexists. split.
  { unfold handle_websocket. unfold bind at 1. rewrite connect_run, Haccept.
    run_call. cbn [handshake_done game_engine]. rewrite Hstate. reflexivity. }
  cbn [trace active_connections set_connections set_engine record handshake_done].
  split; [now rewrite <- app_assoc|]. split; [reflexivity|].
  apply in_or_app. right. now left.
Qed.

End ServerProperties.

(** * Further properties: the REST routes *)

Section RouteProperties.
Context {py : PyRuntime} {xt : ExceptionText}
        {E L : Type} {GE : GameEngine E} {LC : LLMClient L}.

Implicit Types (w : World E L) (ws : WebSocket).

Ltac route_call :=
  unfold route_bind at 1, await at 1;
  first [ rewrite call_action_run | rewrite call_get_state_run
        | rewrite call_get_response_run ];
  cbn [game_engine llm_client set_engine set_llm set_connections record].

(** X19.  The state route never answers 404.  With a pet it answers 200 with the
    state's dictionary; without one, the 404 it raises inside its own [try]
    is caught by its [except Exception] and leaves as a 500 whose detail is
    the text of that 404; an engine failure is a 500 too.  The route reads
    the state once and touches neither the registry nor any socket. *)
Theorem state_route_never_answers_404 w :
  let r := get_tamagotchi_state w in
  trace (snd r) = (trace w ++ [EvEngine GetState])%list
  /\ active_connections (snd r) = active_connections w
  /\ fst r
     = match fst (get_state (game_engine w)) with
       | Returned (Some s) =>
           JSONResponse [ ("success", VBool true); ("tamagotchi", VDict (to_dict s)) ]
       | Returned None =>
           HTTPError 500 (str_of (HTTPException 404 "No Tamagotchi found"))
       | Raised e => HTTPError 500 (str_of (Failure e))
       end
  /\ (forall detail, fst r <> HTTPError 404 detail).
Proof.
  cbv zeta. unfold get_tamagotchi_state, route, route_bind, await.
  rewrite call_get_state_run.
  destruct (get_state (game_engine w)) as [[[s|]|e] e1]; cbn;
    repeat split; intros detail; discriminate.
Qed.

(** The outcomes of an action route, by what its three calls do. *)
Lemma action_route_cases a w :
  action_route a w =
  match engine_method a (game_engine w) with
  | (Raised e, e1) =>
      (HTTPError 500 (str_of (Failure e)),
       set_engine e1 (record [EvEngine (Act a)] w))
  | (Returned result, e1) =>
      let w1 := set_engine e1 (record [EvEngine (Act a)] w) in
      match get_state e1 with
      | (Raised e, e2) =>
          (HTTPError 500 (str_of (Failure e)),
           set_engine e2 (record [EvEngine GetState] w1))
      | (Returned state, e2) =>
          let w2 := set_engine e2 (record [EvEngine GetState] w1) in
          match get_response state (VStr (action_name a)) (Some result) None
                             (llm_client w) with
          | (Raised e, llm1) =>
              (HTTPError 500 (str_of (Failure e)),
               set_llm llm1 (record [EvRespond (VStr (action_name a))] w2))
          | (Returned text, llm1) =>
              let w3 := set_llm llm1 (record [EvRespond (VStr (action_name a))] w2) in
              match state with
              | None => (HTTPError 500 (str_of (Failure AttributeError)), w3)
              | Some s =>
                  (JSONResponse [ ("success", VBool (success result));
                                  ("message", VStr (message result));
                                  ("stat_changes", VDict (stat_changes result));
                                  ("tamagotchi", VDict (to_dict s));
                                  ("response", VStr text) ], w3)
              end
          end
      end
  end.
Proof.
  unfold action_route, route.
  route_call.
  destruct (engine_method a (game_engine w)) as [[result|e] e1]; cbn [fst snd];
    [|reflexivity].
  route_call.
  destruct (get_state e1) as [[state|e] e2]; cbn [fst snd]; [|reflexivity].
  route_call.
  destruct (get_response state (VStr (action_name a)) (Some result) None (llm_client w))
    as [[text|e] llm1]; cbn [fst snd]; [|reflexivity].
  unfold route_bind, state_to_dict, route_ret, route_raise.
  now destruct state.
Qed.

Lemma recognized_name nm a : In (nm, a) recognized -> action_name a = nm.
Proof.
  cbn. intros Hin.
  repeat (destruct Hin as [Hin|Hin]; [injection Hin as <- <-; reflexivity|]).
  contradiction.
Qed.

(** X20.  An action route and the same action sent over a socket make the same
    three collaborator calls in the same order and with the same arguments,
    so they leave the engine and the response generator in the same state.
    The route answers 200 with the result, the state and the response; it
    sends nothing to any socket, where the socket path broadcasts twice. *)
Theorem action_route_agrees_with_socket_action
        ws data d w nm a result e1 s e2 text llm1 :
  json_loads data = Some (VDict d) ->
  get d "type" = VStr "action" ->
  get d "action" = VStr nm ->
  In (nm, a) recognized ->
  engine_method a (game_engine w) = (Returned result, e1) ->
  get_state e1 = (Returned (Some s), e2) ->
  get_response (Some s) (VStr nm) (Some result) None (llm_client w)
  = (Returned text, llm1) ->
  let by_route := action_route a w in
  let by_socket := handle_client_message ws data w in
  let calls := [EvEngine (Act a); EvEngine GetState; EvRespond (VStr nm)] in
  fst by_route
  = JSONResponse [ ("success", VBool (success result));
                   ("message", VStr (message result));
                   ("stat_changes", VDict (stat_changes result));
                   ("tamagotchi", VDict (to_dict s));
                   ("response", VStr text) ]
  /\ trace (snd by_route) = (trace w ++ calls)%list
  /\ active_connections (snd by_route) = active_connections w
  /\ game_engine (snd by_route) = e2
  /\ llm_client (snd by_route) = llm1
  /\ game_engine (snd by_socket) = e2
  /\ llm_client (snd by_socket) = llm1
  /\ (exists sends, trace (snd by_socket) = (trace w ++ calls ++ sends)%list
                    /\ List.length (broadcasts sends) = 2).
Proof.
  intros Hparse Htype Haction Hin Hact Hstate Hresp by_route by_socket calls.
  assert (Hroute : exists w1,
             by_route
             = (JSONResponse [ ("success", VBool (success result));
                               ("message", VStr (message result));
                               ("stat_changes", VDict (stat_changes result));
                               ("tamagotchi", VDict (to_dict s));
                               ("response", VStr text) ], w1)
             /\ trace w1 = (trace w ++ calls)%list
             /\ active_connections w1 = active_connections w
             /\ game_engine w1 = e2
             /\ llm_client w1 = llm1).
  { eexists. split.
    { unfold by_route. rewrite action_route_cases, (recognized_name nm a Hin).
      rewrite Hact, Hstate, Hresp. reflexivity. }
    cbn [trace active_connections game_engine llm_client set_engine set_llm record].
    unfold calls. rewrite <- ?app_assoc. repeat split. }
  assert (Hsocket : exists w2,
             by_socket = (Returned tt, w2)
             /\ trace w2
                = (trace w ++ calls
                     ++ broadcast_events (send_fault w) (active_connections w)
                          [ ("type", VStr "action_result");
                            ("action", VStr nm);
                            ("timestamp", VStr (isoformat (clock w)));
                            ("success", VBool (success result));
                            ("message", VStr (message result));
                            ("stat_changes", VDict (stat_changes result));
                            ("response", VStr text) ]
                     ++ broadcast_events (send_fault w)
                          (survivors (send_fault w) (active_connections w))
                          [ ("type", VStr "state_update");
                            ("timestamp", VStr (isoformat (S (clock w))));
                            ("data", snapshot_or_null (Some s)) ])%list
             /\ game_engine w2 = e2
             /\ llm_client w2 = llm1).
  { eexists. split.
    { unfold by_socket.
      rewrite (handle_client_message_action ws data d) by assumption.
      rewrite (handle_action_message_recognized d w nm a) by assumption.
      unfold bind at 1. rewrite call_action_run, Hact. cbn [fst snd].
      unfold bind at 1. rewrite call_get_state_run.
      cbn [game_engine set_engine record]. rewrite Hstate. cbn [fst snd].
      unfold bind at 1. rewrite call_get_response_run.
      cbn [llm_client set_engine record]. rewrite Hresp. cbn [fst snd].
      unfold broadcast_action_result, broadcast_state_update, bind, now.
      rewrite broadcast_run. cbn [get_default String.eqb Ascii.eqb Bool.eqb].
      rewrite broadcast_run. reflexivity. }
    cbn [trace active_connections send_fault game_engine llm_client clock
               set_connections set_engine set_llm record tick].
    unfold calls. rewrite <- ?app_assoc. repeat split. }
  destruct Hroute as (w1 & Hroute & Ht1 & Hr1 & He1 & Hl1).
  destruct Hsocket as (w2 & Hsocket & Ht2 & He2 & Hl2).
  rewrite Hroute, Hsocket. cbn [fst snd].
  repeat (split; [assumption || reflexivity|]).
  eexists. split; [exact Ht2|].
  rewrite broadcasts_app.
  rewrite (proj1 (broadcast_events_read _ _ _)), (proj1 (broadcast_events_read _ _ _)).
  reflexivity.
Qed.

(** X21.  An action route called when there is no pet: the engine method, the
    state read and the response generator all run, and only then does the
    missing state make the route fail, with a 500 carrying the text of the
    attribute error.  The socket path in the same situation broadcasts a
    state update with no data instead. *)
Theorem action_route_without_pet w nm a result e1 e2 text llm1 :
  In (nm, a) recognized ->
  engine_method a (game_engine w) = (Returned result, e1) ->
  get_state e1 = (Returned None, e2) ->
  get_response None (VStr nm) (Some result) None (llm_client w) = (Returned text, llm1) ->
  let by_route := action_route a w in
  fst by_route = HTTPError 500 (str_of (Failure AttributeError))
  /\ trace (snd by_route)
     = (trace w ++ [EvEngine (Act a); EvEngine GetState; EvRespond (VStr nm)])%list
  /\ game_engine (snd by_route) = e2
  /\ llm_client (snd by_route) = llm1.
Proof.
  intros Hin Hact Hstate Hresp by_route.
  unfold by_route. rewrite action_route_cases, (recognized_name nm a Hin).
  rewrite Hact, Hstate, Hresp.
  cbn [fst snd trace game_engine llm_client set_engine set_llm record].
  rewrite <- ?app_assoc. repeat split.
Qed.

(** X22.  Whatever the collaborators do, an action route answers 200 or 500 and
    nothing else, attempts no send on any socket, broadcasts nothing and
    leaves the registry alone: an action run over REST is not pushed to the
    viewers connected by socket. *)
Theorem action_route_tells_no_socket a w :
  let by_route := action_route a w in
  exists calls,
    trace (snd by_route) = (trace w ++ calls)%list
    /\ attempts calls = []
    /\ broadcasts calls = []
    /\ personals calls = []
    /\ active_connections (snd by_route) = active_connections w
    /\ (forall status detail, fst by_route = HTTPError status detail -> status = 500).
Proof.
  cbv zeta. rewrite action_route_cases.
  destruct (engine_method a (game_engine w)) as [[result|e] e1].
  2:{ exists [EvEngine (Act a)].
      cbn [fst snd trace active_connections set_engine set_llm record].
      repeat split. intros status detail Heq. now injection Heq as <- _. }
  destruct (get_state e1) as [[state|e] e2].
  2:{ exists [EvEngine (Act a); EvEngine GetState].
      cbn [fst snd trace active_connections set_engine set_llm record].
      rewrite <- ?app_assoc. repeat split.
      intros status detail Heq. now injection Heq as <- _. }
  destruct (get_response state (VStr (action_name a)) (Some result) None (llm_client w))
    as [[text|e] llm1].
  2:{ exists [EvEngine (Act a); EvEngine GetState; EvRespond (VStr (action_name a))].
      cbn [fst snd trace active_connections set_engine set_llm record].
      rewrite <- ?app_assoc. repeat split.
      intros status detail Heq. now injection Heq as <- _. }
  exists [EvEngine (Act a); EvEngine GetState; EvRespond (VStr (action_name a))].
  destruct state as [s|];
    cbn [fst snd trace active_connections set_engine set_llm record];
    rewrite <- ?app_assoc; repeat split;
    intros status detail Heq; try discriminate; now injection Heq as <- _.
Qed.

End RouteProperties.

(** * The further properties at work on concrete worlds *)

Import Bench.

(** A starving pet. *)
Lemma dying_pet_looks_critical_witness :
  let s := pet_with true 100 50 50 in
  is_alive s = true
  /\ should_die s = true
  /\ get_mood_emoji s = face_dizzy.
Proof.
  intros s.
  assert (H1 : is_alive s = true) by reflexivity.
  assert (H2 : should_die s = true) by reflexivity.
  repeat (split; [assumption|]).
  destruct (dying_pet_looks_critical s H1 H2) as (Hface & _).
  rewrite Hface. reflexivity.
Defined.

Lemma tally_injective t1 t2 : tally t1 = tally t2 -> t1 = t2.
Proof.
  revert t2. induction t1 as [|t1 IH]; intros [|t2] Heq; cbn in Heq;
    try reflexivity; try discriminate.
  injection Heq as Heq. f_equal. now apply IH.
Qed.

(** Two readings of the same pet. *)
Lemma to_dict_loses_nothing_witness :
  let s1 := pet_with true 50 50 50 in
  let s2 := pet_with true 50 50 50 in
  (forall t1 t2 : datetime,
      @isoformat bench_py t1 = @isoformat bench_py t2 -> t1 = t2)
  /\ @to_dict bench_py s1 = @to_dict bench_py s2
  /\ s1 = s2
  /\ keys (@to_dict bench_py s1)
     = [ "name"; "age"; "hunger"; "happiness"; "energy"; "is_alive"; "current_mood";
         "last_fed"; "last_played"; "last_slept"; "last_pet"; "created_at";
         "total_interactions"; "deaths" ].
Proof.
  intros s1 s2.
  assert (H1 : forall t1 t2 : datetime,
             @isoformat bench_py t1 = @isoformat bench_py t2 -> t1 = t2)
    by exact tally_injective.
  assert (H2 : @to_dict bench_py s1 = @to_dict bench_py s2) by reflexivity.
  repeat (split; [assumption|]).
  destruct (@to_dict_loses_nothing bench_py s1 s2 H1 H2) as (Heq & _).
  split; [exact Heq | reflexivity].
Defined.

(** Socket 1 is registered twice and its link is down. *)
Lemma dead_link_removal_witness :
  let w := world [1; 2; 1] (dead_link 1) in
  let msg := [("type", VStr "pong")] in
  send_fault w 1 = Some WebSocketDisconnect
  /\ active_connections (snd (@send_personal_message toy_py nat unit msg 1 w)) = [2; 1]
  /\ active_connections (snd (@broadcast toy_py nat unit msg w)) = [2]
  /\ count_occ Nat.eq_dec
       (active_connections (snd (@send_personal_message toy_py nat unit msg 1 w))) 1
     = 1.
Proof.
  intros w msg.
  assert (H1 : send_fault w 1 = Some WebSocketDisconnect) by reflexivity.
  split; [assumption|].
  destruct (@dead_link_removal toy_py nat unit 1 msg w WebSocketDisconnect H1)
    as (_ & _ & Hcount & _).
  split; [reflexivity|]. split; [reflexivity|].
  rewrite Hcount. reflexivity.
Defined.

(** [{"type": "ping"}] from socket 1. *)
Lemma ping_gets_one_pong_witness :
  let w := world [1; 2] no_fault in
  let data := frame1 "ping" in
  let d := [("type", VStr "ping")] in
  @json_loads toy_py data = Some (VDict d)
  /\ get d "type" = VStr "ping"
  /\ exists w',
       @handle_client_message toy_py nat unit toy_engine toy_llm 1 data w = (Returned tt, w')
       /\ trace w'
          = [ EvPersonal 1 (VDict [("type", VStr "pong"); ("timestamp", VStr "T0")]);
              EvSend 1 "pong" true ]
       /\ received 2 (trace w') = [].
Proof.
  intros w data d.
  assert (H1 : @json_loads toy_py data = Some (VDict d)) by reflexivity.
  assert (H2 : get d "type" = VStr "ping") by reflexivity.
  repeat (split; [assumption|]).
  destruct (@ping_gets_one_pong toy_py nat unit toy_engine toy_llm 1 data d w H1 H2)
    as (w' & Hrun & Htrace & _).
  exists w'. split; [exact Hrun|].
  rewrite Htrace. split; reflexivity.
Defined.

(** [{"type": "get_state"}] from socket 1. *)
Lemma state_query_is_answered_personally_witness :
  let w := world [1; 2] no_fault in
  let data := frame1 "get_state" in
  let d := [("type", VStr "get_state")] in
  @json_loads toy_py data = Some (VDict d)
  /\ get d "type" = VStr "get_state"
  /\ @get_state nat toy_engine (game_engine w) = (Returned (Some (pet_state 0)), 0)
  /\ exists w',
       @handle_client_message toy_py nat unit toy_engine toy_llm 1 data w = (Returned tt, w')
       /\ map fst (personals (trace w')) = [1]
       /\ received 1 (trace w') = ["state_update"]
       /\ received 2 (trace w') = []
       /\ broadcasts (trace w') = [].
Proof.
  intros w data d.
  assert (H1 : @json_loads toy_py data = Some (VDict d)) by reflexivity.
  assert (H2 : get d "type" = VStr "get_state") by reflexivity.
  assert (H3 : @get_state nat toy_engine (game_engine w) = (Returned (Some (pet_state 0)), 0))
    by reflexivity.
  repeat (split; [assumption|]).
  destruct (@state_query_is_answered_personally toy_py nat unit toy_engine toy_llm
              1 data d w (Some (pet_state 0)) 0 H1 H2 H3)
    as (w' & Hrun & Htrace & _).
  exists w'. split; [exact Hrun|].
  rewrite Htrace. repeat split; reflexivity.
Defined.

(** [{"type": "dance"}] from socket 1. *)
Lemma unknown_type_is_answered_personally_witness :
  let w := world [1; 2] no_fault in
  let data := frame1 "dance" in
  let d := [("type", VStr "dance")] in
  @json_loads bench_py data = Some (VDict d)
  /\ (forall nm, In nm ["ping"; "get_state"; "action"; "chat"] -> get d "type" <> VStr nm)
  /\ exists w',
       @handle_client_message bench_py nat unit toy_engine toy_llm 1 data w
       = (Returned tt, w')
       /\ received 1 (trace w') = ["error: Unknown message type: dance"]
       /\ received 2 (trace w') = []
       /\ broadcasts (trace w') = [].
Proof.
  intros w data d.
  assert (H1 : @json_loads bench_py data = Some (VDict d)) by reflexivity.
  assert (H2 : forall nm, In nm ["ping"; "get_state"; "action"; "chat"] ->
                          get d "type" <> VStr nm)
    by (intros nm [<-|[<-|[<-|[<-|[]]]]]; discriminate).
  repeat (split; [assumption|]).
  destruct (@unknown_type_is_answered_personally bench_py nat unit toy_engine toy_llm
              1 data d w H1 H2)
    as (w' & Hrun & Htrace & _).
  exists w'. split; [exact Hrun|].
  rewrite Htrace. repeat split; reflexivity.
Defined.

(** [{"type": "chat", "message": "hello"}] from socket 1. *)
Lemma chat_is_broadcast_witness :
  let w := world [1; 2] no_fault in
  let data := frame2 "chat" "message" "hello" in
  let d := [("type", VStr "chat"); ("message", VStr "hello")] in
  @json_loads toy_py data = Some (VDict d)
  /\ get d "type" = VStr "chat"
  /\ @get_state nat toy_engine (game_engine w) = (Returned (Some (pet_state 0)), 0)
  /\ @get_response unit toy_llm (Some (pet_state 0)) (VStr "talk") None
                   (Some (get_default d "message" (VStr ""))) (llm_client w)
     = (Returned "purr", tt)
  /\ exists w',
       @handle_client_message toy_py nat unit toy_engine toy_llm 1 data w = (Returned tt, w')
       /\ broadcasts (trace w')
          = [VDict [ ("type", VStr "chat_message"); ("timestamp", VStr "T0");
                     ("response", VStr "purr"); ("mood", VStr ":)") ]]
       /\ received 1 (trace w') = ["chat_message"]
       /\ received 2 (trace w') = ["chat_message"]
       /\ personals (trace w') = [].
Proof.
  intros w data d.
  assert (H1 : @json_loads toy_py data = Some (VDict d)) by reflexivity.
  assert (H2 : get d "type" = VStr "chat") by reflexivity.
  assert (H3 : @get_state nat toy_engine (game_engine w) = (Returned (Some (pet_state 0)), 0))
    by reflexivity.
  assert (H4 : @get_response unit toy_llm (Some (pet_state 0)) (VStr "talk") None
                             (Some (get_default d "message" (VStr ""))) (llm_client w)
               = (Returned "purr", tt)) by reflexivity.
  repeat (split; [assumption|]).
  destruct (@chat_is_broadcast toy_py nat unit toy_engine toy_llm 1 data d w
              (Some (pet_state 0)) 0 "purr" tt H1 H2 H3 H4)
    as (w' & Hrun & Htrace & _).
  exists w'. split; [exact Hrun|].
  rewrite Htrace. repeat split; reflexivity.
Defined.

(** Socket 7 joins, pings, sends garbage and leaves. *)
Lemma session_ends_with_disconnect_witness :
  let w := world [1; 2] no_fault in
  accept_fault w 7 = None
  /\ @get_state nat toy_engine (game_engine w) = (Returned (Some (pet_state 0)), 0)
  /\ exists w',
       @handle_websocket toy_py nat unit toy_engine toy_llm 7 [frame1 "ping"; "garbage"] w
       = (Returned tt, w')
       /\ active_connections w' = [1; 2]
       /\ received 7 (trace w')
          = ["welcome: Connected to Tamagotchi!"; "pong"; "error: Invalid JSON format"]
       /\ last (trace w') (EvAccept 0) = EvDisconnect 7.
Proof.
  intros w.
  assert (H1 : accept_fault w 7 = None) by reflexivity.
  assert (H2 : @get_state nat toy_engine (game_engine w) = (Returned (Some (pet_state 0)), 0))
    by reflexivity.
  repeat (split; [assumption|]).
  destruct (@session_ends_with_disconnect toy_py nat unit toy_engine toy_llm
              7 [frame1 "ping"; "garbage"] w (Some (pet_state 0)) 0 H1 H2)
    as (w' & middle & Hrun & _).
  exists w'. split; [exact Hrun|].
  pose proof Hrun as Hrun'. vm_compute in Hrun'.
  injection Hrun' as <-. repeat split; reflexivity.
Defined.

(** Socket 7 is refused at the handshake. *)
Lemma failed_handshake_leaves_no_trace_witness :
  let w := world_refusing 7 [1] in
  accept_fault w 7 = Some WebSocketDisconnect
  /\ @handle_websocket toy_py nat unit toy_engine toy_llm 7 [frame1 "ping"] w
     = (Raised WebSocketDisconnect, w)
  /\ active_connections w = [1]
  /\ trace w = [].
Proof.
  intros w.
  assert (H1 : accept_fault w 7 = Some WebSocketDisconnect) by reflexivity.
  split; [assumption|].
  split; [|split; reflexivity].
  exact (@failed_handshake_leaves_no_trace toy_py nat unit toy_engine toy_llm
           7 [frame1 "ping"] w WebSocketDisconnect H1).
Defined.

(** Socket 7 joins while the engine is down. *)
Lemma failed_state_read_leaves_socket_registered_witness :
  let w := world [1] no_fault in
  let e := OtherError "RuntimeError" in
  accept_fault w 7 = None
  /\ fst (@get_state nat (broken_engine e) (game_engine w)) = Raised e
  /\ exists w',
       @handle_websocket toy_py nat unit (broken_engine e) toy_llm 7 [frame1 "ping"] w
       = (Raised e, w')
       /\ active_connections w' = [1; 7]
       /\ trace w' = [EvAccept 7; EvEngine GetState].
Proof.
  intros w e.
  assert (H1 : accept_fault w 7 = None) by reflexivity.
  assert (H2 : fst (@get_state nat (broken_engine e) (game_engine w)) = Raised e)
    by reflexivity.
  repeat (split; [assumption|]).
  destruct (@failed_state_read_leaves_socket_registered toy_py nat unit
              (broken_engine e) toy_llm 7 [frame1 "ping"] w e H1 H2)
    as (w' & Hrun & Htrace & Hreg & _).
  exists w'. split; [exact Hrun|]. split; [exact Hreg | exact Htrace].
Defined.

(** Feeding over REST and over a socket. *)
Lemma action_route_agrees_with_socket_action_witness :
  let w := world [1; 2] no_fault in
  let data := frame2 "action" "action" "feed" in
  let d := [("type", VStr "action"); ("action", VStr "feed")] in
  @json_loads toy_py data = Some (VDict d)
  /\ get d "type" = VStr "action"
  /\ get d "action" = VStr "feed"
  /\ In ("feed", Feed) recognized
  /\ @engine_method nat toy_engine Feed (game_engine w) = (Returned (done "fed"), 1)
  /\ @get_state nat toy_engine 1 = (Returned (Some (pet_state 1)), 1)
  /\ @get_response unit toy_llm (Some (pet_state 1)) (VStr "feed") (Some (done "fed")) None
                   (llm_client w)
     = (Returned "purr", tt)
  /\ game_engine (snd (@feed_tamagotchi toy_py toy_text nat unit toy_engine toy_llm w)) = 1
  /\ game_engine
       (snd (@handle_client_message toy_py nat unit toy_engine toy_llm 1 data w)) = 1
  /\ attempts (trace (snd (@feed_tamagotchi toy_py toy_text nat unit toy_engine toy_llm w)))
     = [].
Proof.
  intros w data d.
  assert (H1 : @json_loads toy_py data = Some (VDict d)) by reflexivity.
  assert (H2 : get d "type" = VStr "action") by reflexivity.
  assert (H3 : get d "action" = VStr "feed") by reflexivity.
  assert (H4 : In ("feed", Feed) recognized) by (simpl; auto).
  assert (H5 : @engine_method nat toy_engine Feed (game_engine w) = (Returned (done "fed"), 1))
    by reflexivity.
  assert (H6 : @get_state nat toy_engine 1 = (Returned (Some (pet_state 1)), 1))
    by reflexivity.
  assert (H7 : @get_response unit toy_llm (Some (pet_state 1)) (VStr "feed")
                             (Some (done "fed")) None (llm_client w)
               = (Returned "purr", tt)) by reflexivity.
  repeat (split; [assumption|]).
  destruct (@action_route_agrees_with_socket_action toy_py toy_text nat unit
              toy_engine toy_llm 1 data d w "feed" Feed (done "fed") 1 (pet_state 1) 1
              "purr" tt H1 H2 H3 H4 H5 H6 H7)
    as (_ & Htrace & _ & Hroute & _ & Hsocket & _).
  split; [exact Hroute|]. split; [exact Hsocket|].
  unfold feed_tamagotchi. rewrite Htrace. reflexivity.
Defined.

(** Feeding over REST when there is no pet. *)
Lemma action_route_without_pet_witness :
  let w := world [1; 2] no_fault in
  In ("feed", Feed) recognized
  /\ @engine_method nat empty_engine Feed (game_engine w) = (Returned (done "fed"), 1)
  /\ @get_state nat empty_engine 1 = (Returned None, 1)
  /\ @get_response unit toy_llm None (VStr "feed") (Some (done "fed")) None (llm_client w)
     = (Returned "purr", tt)
  /\ fst (@feed_tamagotchi toy_py toy_text nat unit empty_engine toy_llm w)
     = HTTPError 500 "'NoneType' object has no attribute 'to_dict'"
  /\ game_engine (snd (@feed_tamagotchi toy_py toy_text nat unit empty_engine toy_llm w))
     = 1.
Proof.
  intros w.
  assert (H1 : In ("feed", Feed) recognized) by (simpl; auto).
  assert (H2 : @engine_method nat empty_engine Feed (game_engine w)
               = (Returned (done "fed"), 1)) by reflexivity.
  assert (H3 : @get_state nat empty_engine 1 = (Returned None, 1)) by reflexivity.
  assert (H4 : @get_response unit toy_llm None (VStr "feed") (Some (done "fed")) None
                             (llm_client w)
               = (Returned "purr", tt)) by reflexivity.
  repeat (split; [assumption|]).
  destruct (@action_route_without_pet toy_py toy_text nat unit empty_engine toy_llm
              w "feed" Feed (done "fed") 1 1 "purr" tt H1 H2 H3 H4)
    as (Hresp & _ & Hengine & _).
  split; [exact Hresp | exact Hengine].
Defined.
